(** * apr-util, ldap/apr_ldap_init.c: a shallow embedding

    The file has four entry points: [apr_ldap_ssl_init], [apr_ldap_ssl_deinit],
    [apr_ldap_init] and [apr_ldap_info].  Their bodies are selected by the
    preprocessor, so the embedding takes the macros tested by [#if] and
    [#ifdef] as a record of switches and keeps every guarded block, in source
    order.  The vendor SDK is an interface of state transformers; each native
    call is also recorded, so that "no toolkit call was made" is a statement
    about the recorded calls. *)

From Stdlib Require Import ZArith List String Bool Lia.
Import ListNotations.

Local Open Scope string_scope.
Local Open Scope list_scope.
Local Open Scope Z_scope.

(** ** Data *)

(** [apr_ldap_err_t]: [reason] and [msg] are [const char *] (NULL is [None]),
    [rc] is an [int]. *)
Record apr_ldap_err_t : Type := mk_err {
  reason : option string;
  msg : option string;
  rc : Z
}.

(** [apr_pcalloc(pool, sizeof(apr_ldap_err_t))]: all fields zero. *)
Definition apr_pcalloc_err : apr_ldap_err_t :=
  {| reason := None; msg := None; rc := 0 |}.

Definition set_reason (r : apr_ldap_err_t) (s : string) : apr_ldap_err_t :=
  {| reason := Some s; msg := msg r; rc := rc r |}.

Definition set_msg (r : apr_ldap_err_t) (s : string) : apr_ldap_err_t :=
  {| reason := reason r; msg := Some s; rc := rc r |}.

Definition set_rc (r : apr_ldap_err_t) (z : Z) : apr_ldap_err_t :=
  {| reason := reason r; msg := msg r; rc := z |}.

(** An [LDAP *] is [option LDAP]; the handle itself is opaque. *)
Definition LDAP : Type := nat.

(** The macros the file tests.  A macro used in [#if] is a [bool] (undefined
    or zero is [false]); a macro used in [#ifdef] and then as a value is an
    [option Z].  The names are the ones the source spells: line 72 tests
    [APR_HAS_NETSCAPE_LDAPSK] and line 74 [APR_HAS_LDAP_SSL_CLIENT_INIT],
    while line 273 tests [APR_HAS_NETSCAPE_LDAPSDK] and line 96
    [APR_HAS_LDAPSSL_CLIENT_INIT]; they are four different macros. *)
Record build : Type := mk_build {
  APR_HAS_LDAP_SSL : bool;
  APR_HAS_NETSCAPE_LDAPSK : bool;
  APR_HAS_LDAP_SSL_CLIENT_INIT : bool;
  APR_HAS_NETSCAPE_LDAPSDK : bool;
  APR_HAS_NOVELL_LDAPSDK : bool;
  APR_HAS_OPENLDAP_LDAPSDK : bool;
  APR_HAS_MICROSOFT_LDAPSDK : bool;
  APR_HAS_SOLARIS_LDAPSDK : bool;
  APR_HAS_OTHER_LDAPSDK : bool;
  APR_HAS_LDAPSSL_CLIENT_INIT : bool;
  APR_HAS_LDAPSSL_ADD_TRUSTED_CERT : bool;
  APR_HAS_LDAPSSL_CLIENT_DEINIT : bool;
  APR_HAS_LDAPSSL_INIT : bool;
  APR_HAS_LDAP_SSLINIT : bool;
  LDAP_OPT_X_TLS_CACERTFILE : option Z;
  LDAP_OPT_X_TLS : option Z
}.

(** The constants the file uses and the headers define (apr_errno.h,
    apr_ldap.h, the SDK's ldap.h); their values are not in this file, so they
    are parameters. *)
Record constants : Type := mk_constants {
  APR_SUCCESS : Z;
  APR_EGENERAL : Z;
  APR_ENOTIMPL : Z;
  LDAP_SUCCESS : Z;
  APR_LDAP_CA_TYPE_DER : Z;
  APR_LDAP_CA_TYPE_BASE64 : Z;
  APR_LDAP_CA_TYPE_CERT7_DB : Z;
  LDAPSSL_CERT_FILETYPE_B64 : Z;
  LDAPSSL_CERT_FILETYPE_DER : Z;
  LDAP_OPT_X_TLS_HARD : Z;
  LDAP_VENDOR_NAME : string
}.

(** The [invalue] argument of [ldap_set_option]: a file name, or the address
    of an [int]. *)
Inductive invalue : Type :=
| in_string (s : string)
| in_int (z : Z).

(** The calls into the vendor SDK that the file makes. *)
Inductive native_call : Type :=
| call_ldapssl_client_init (certdbpath : option string)
| call_ldapssl_add_trusted_cert (cert : string) (filetype : Z)
| call_ldapssl_client_deinit
| call_ldap_set_option (ld : option LDAP) (opt : Z) (v : invalue)
| call_ldap_init (host : string) (port : Z)
| call_ldapssl_init (host : string) (port : Z) (secure : Z)
| call_ldap_sslinit (host : string) (port : Z) (secure : Z)
| call_ldap_unbind_s (ld : LDAP)
| call_ldap_err2string (err : Z).

(** The vendor SDK and the host environment, over a state [S] that is
    theirs.  [ldapssl_client_init] is always called with a NULL second
    argument; the source discards what [ldapssl_client_deinit] and
    [ldap_unbind_s] return. *)
Record toolkit (S : Type) : Type := mk_toolkit {
  ldapssl_client_init : option string -> S -> Z * S;
  ldapssl_add_trusted_cert : string -> Z -> S -> Z * S;
  ldapssl_client_deinit : S -> S;
  ldap_set_option : option LDAP -> Z -> invalue -> S -> Z * S;
  ldap_init : string -> Z -> S -> option LDAP * S;
  ldapssl_init : string -> Z -> Z -> S -> option LDAP * S;
  ldap_sslinit : string -> Z -> Z -> S -> option LDAP * S;
  ldap_unbind_s : LDAP -> S -> S;
  ldap_err2string : Z -> string;
  apr_get_os_error : S -> Z
}.

Arguments ldapssl_client_init {S} _ _ _.
Arguments ldapssl_add_trusted_cert {S} _ _ _ _.
Arguments ldapssl_client_deinit {S} _ _.
Arguments ldap_set_option {S} _ _ _ _ _.
Arguments ldap_init {S} _ _ _ _.
Arguments ldapssl_init {S} _ _ _ _ _.
Arguments ldap_sslinit {S} _ _ _ _ _.
Arguments ldap_unbind_s {S} _ _ _.
Arguments ldap_err2string {S} _ _.
Arguments apr_get_os_error {S} _ _.

(** ** Effects: toolkit state and the calls made *)

Module Eff.

(** A computation reads and writes the toolkit state and reports the native
    calls it made, oldest first. *)
Definition M (S A : Type) : Type := S -> A * S * list native_call.

Definition ret {S A : Type} (a : A) : M S A := fun s => (a, s, []).

Definition bind {S A B : Type} (m : M S A) (f : A -> M S B) : M S B :=
  fun s =>
    match m s with
    | (a, s1, c1) =>
        match f a s1 with
        | (b, s2, c2) => (b, s2, c1 ++ c2)
        end
    end.

(** A native call that returns a value. *)
Definition call {S A : Type} (c : native_call) (f : S -> A * S) : M S A :=
  fun s => match f s with (a, s1) => (a, s1, [c]) end.

(** A native call whose result the source ignores. *)
Definition call_ {S : Type} (c : native_call) (f : S -> S) : M S unit :=
  fun s => (tt, f s, [c]).

(** A native call that does not touch the state. *)
Definition pure_call {S A : Type} (c : native_call) (a : A) : M S A :=
  fun s => (a, s, [c]).

(** A read of the environment that is not a toolkit call. *)
Definition get {S A : Type} (f : S -> A) : M S A := fun s => (f s, s, []).

End Eff.

Notation "x <- m ;; k" := (Eff.bind m (fun x => k))
  (at level 61, m at next level, right associativity).
Notation "m ;;; k" := (Eff.bind m (fun _ => k))
  (at level 61, right associativity).

(** What a call leaves behind. *)
Definition value {S A : Type} (o : A * S * list native_call) : A := fst (fst o).
Definition state {S A : Type} (o : A * S * list native_call) : S := snd (fst o).
Definition calls {S A : Type} (o : A * S * list native_call) : list native_call := snd o.

(** ** apr_ldap_ssl_init *)

(** The file type handed to [ldapssl_add_trusted_cert], lines 112-119. *)
Definition novell_filetype (k : constants) (ty : Z) : Z :=
  if ty =? APR_LDAP_CA_TYPE_BASE64 k
  then LDAPSSL_CERT_FILETYPE_B64 k
  else LDAPSSL_CERT_FILETYPE_DER k.

Section SslInit.

Context {S : Type} (tk : toolkit S) (k : constants) (b : build).

(** Lines 72-92, the Netscape SDK. *)
Definition ssl_init_netscape (cert_auth_file : option string) (cert_file_type : Z)
           (result : apr_ldap_err_t) : Eff.M S apr_ldap_err_t :=
  if APR_HAS_NETSCAPE_LDAPSK b then
    match cert_auth_file with
    | Some file =>
        if APR_HAS_LDAP_SSL_CLIENT_INIT b then
          if cert_file_type =? APR_LDAP_CA_TYPE_CERT7_DB k then
            r <- Eff.call (call_ldapssl_client_init (Some file))
                          (ldapssl_client_init tk (Some file)) ;;
            Eff.ret (set_rc result r)
          else
            Eff.ret (set_rc (set_reason result
              "LDAP: Invalid certificate type: CERT7_DB type required") (-1))
        else
          Eff.ret (set_rc (set_reason result
            "LDAP: ldapssl_client_init() function not supported by this Netscape SDK. Certificate authority file not set") (-1))
    | None => Eff.ret result
    end
  else Eff.ret result.

(** Lines 95-144, the Novell SDK. *)
Definition ssl_init_novell (cert_auth_file : option string) (cert_file_type : Z)
           (result : apr_ldap_err_t) : Eff.M S apr_ldap_err_t :=
  if APR_HAS_NOVELL_LDAPSDK b then
    if APR_HAS_LDAPSSL_CLIENT_INIT b && APR_HAS_LDAPSSL_ADD_TRUSTED_CERT b
       && APR_HAS_LDAPSSL_CLIENT_DEINIT b then
      r <- Eff.call (call_ldapssl_client_init None) (ldapssl_client_init tk None) ;;
      let result := set_rc result r in
      if negb (LDAP_SUCCESS k =? rc result) then
        m <- Eff.pure_call (call_ldap_err2string (rc result))
                           (ldap_err2string tk (rc result)) ;;
        Eff.ret (set_reason (set_msg result m) "LDAP: Could not initialize SSL")
      else
        match cert_auth_file with
        | Some file =>
            if (cert_file_type =? APR_LDAP_CA_TYPE_DER k)
               || (cert_file_type =? APR_LDAP_CA_TYPE_BASE64 k) then
              let filetype := novell_filetype k cert_file_type in
              r <- Eff.call (call_ldapssl_add_trusted_cert file filetype)
                            (ldapssl_add_trusted_cert tk file filetype) ;;
              let result := set_rc result r in
              if negb (LDAP_SUCCESS k =? rc result) then
                Eff.call_ call_ldapssl_client_deinit (ldapssl_client_deinit tk) ;;;
                Eff.ret (set_reason result
                  ("LDAP: Invalid certificate or path: Could not add trusted cert "
                     ++ file)%string)
              else Eff.ret result
            else
              Eff.ret (set_rc (set_reason result
                "LDAP: Invalid certificate type: DER or BASE64 type required") (-1))
        | None => Eff.ret result
        end
    else
      Eff.ret (set_rc (set_reason result
        "LDAP: ldapssl_client_init(), ldapssl_add_trusted_cert() or ldapssl_client_deinit() functions not supported by this Novell SDK. Certificate authority file not set") (-1))
  else Eff.ret result.

(** Lines 147-169, the OpenLDAP SDK. *)
Definition ssl_init_openldap (cert_auth_file : option string) (cert_file_type : Z)
           (result : apr_ldap_err_t) : Eff.M S apr_ldap_err_t :=
  if APR_HAS_OPENLDAP_LDAPSDK b then
    match cert_auth_file with
    | Some file =>
        match LDAP_OPT_X_TLS_CACERTFILE b with
        | Some opt =>
            if cert_file_type =? APR_LDAP_CA_TYPE_BASE64 k then
              r <- Eff.call (call_ldap_set_option None opt (in_string file))
                            (ldap_set_option tk None opt (in_string file)) ;;
              Eff.ret (set_rc result r)
            else
              Eff.ret (set_rc (set_reason result
                "LDAP: Invalid certificate type: BASE64 type required") (-1))
        | None =>
            Eff.ret (set_rc (set_reason result
              "LDAP: LDAP_OPT_X_TLS_CACERTFILE not defined by this OpenLDAP SDK. Certificate authority file not set") (-1))
        end
    | None => Eff.ret result
    end
  else Eff.ret result.

(** Lines 172-177, the Microsoft SDK. *)
Definition ssl_init_microsoft (result : apr_ldap_err_t) : Eff.M S apr_ldap_err_t :=
  if APR_HAS_MICROSOFT_LDAPSDK b
  then Eff.ret (set_rc result (LDAP_SUCCESS k))
  else Eff.ret result.

(** Lines 180-187, the Sun SDK. *)
Definition ssl_init_solaris (cert_auth_file : option string)
           (result : apr_ldap_err_t) : Eff.M S apr_ldap_err_t :=
  if APR_HAS_SOLARIS_LDAPSDK b then
    match cert_auth_file with
    | Some _ =>
        Eff.ret (set_rc (set_reason result
          "LDAP: Attempt to set certificate store failed. APR does not yet know how to set a certificate store on the Sun toolkit") (-1))
    | None => Eff.ret result
    end
  else Eff.ret result.

(** Lines 190-198, an SDK that is not recognised. *)
Definition ssl_init_other (cert_auth_file : option string)
           (result : apr_ldap_err_t) : Eff.M S apr_ldap_err_t :=
  if APR_HAS_OTHER_LDAPSDK b then
    match cert_auth_file with
    | Some _ =>
        Eff.ret (set_rc (set_reason result
          "LDAP: Attempt to set certificate store failed. Toolkit type not recognised by APR as supporting SSL") (-1))
    | None => Eff.ret result
    end
  else Eff.ret result.

(** Lines 201-205, the [#else] of [#if APR_HAS_LDAP_SSL]. *)
Definition ssl_init_nossl (cert_auth_file : option string)
           (result : apr_ldap_err_t) : Eff.M S apr_ldap_err_t :=
  match cert_auth_file with
  | Some _ =>
      Eff.ret (set_rc (set_reason result
        "LDAP: Attempt to set certificate store failed. Not built with SSL support") (-1))
  | None => Eff.ret result
  end.

(** Lines 66-206: the result record after the vendor blocks. *)
Definition ssl_init_blocks (cert_auth_file : option string) (cert_file_type : Z)
  : Eff.M S apr_ldap_err_t :=
  let result := apr_pcalloc_err in
  if APR_HAS_LDAP_SSL b then
    result <- ssl_init_netscape cert_auth_file cert_file_type result ;;
    result <- ssl_init_novell cert_auth_file cert_file_type result ;;
    result <- ssl_init_openldap cert_auth_file cert_file_type result ;;
    result <- ssl_init_microsoft result ;;
    result <- ssl_init_solaris cert_auth_file result ;;
    ssl_init_other cert_auth_file result
  else
    ssl_init_nossl cert_auth_file result.

(** Lines 208-216: decode [rc] unless it is -1, then pick the status. *)
Definition ssl_init_finish (result : apr_ldap_err_t)
  : Eff.M S (Z * apr_ldap_err_t) :=
  result <- (if negb (rc result =? -1) then
               m <- Eff.pure_call (call_ldap_err2string (rc result))
                                  (ldap_err2string tk (rc result)) ;;
               Eff.ret (set_msg result m)
             else Eff.ret result) ;;
  if negb (LDAP_SUCCESS k =? rc result)
  then Eff.ret (APR_EGENERAL k, result)
  else Eff.ret (APR_SUCCESS k, result).

(** [apr_ldap_ssl_init(pool, cert_auth_file, cert_file_type, result_err)]:
    the returned [int] and the record stored in [*result_err]. *)
Definition apr_ldap_ssl_init (cert_auth_file : option string) (cert_file_type : Z)
  : Eff.M S (Z * apr_ldap_err_t) :=
  result <- ssl_init_blocks cert_auth_file cert_file_type ;;
  ssl_init_finish result.

(** [apr_ldap_ssl_deinit()], lines 233-240. *)
Definition apr_ldap_ssl_deinit : Eff.M S Z :=
  (if APR_HAS_LDAP_SSL b && APR_HAS_LDAPSSL_CLIENT_DEINIT b
   then Eff.call_ call_ldapssl_client_deinit (ldapssl_client_deinit tk)
   else Eff.ret tt) ;;;
  Eff.ret (APR_SUCCESS k).

(** [apr_ldap_info(pool, result_err)], lines 351-361. *)
Definition apr_ldap_info : Eff.M S (Z * apr_ldap_err_t) :=
  let result := apr_pcalloc_err in
  Eff.ret (APR_SUCCESS k,
           set_reason result ("APR LDAP: Built with " ++ LDAP_VENDOR_NAME k ++ " LDAP SDK")%string).

End SslInit.


(** ** apr_ldap_init *)

(** The two objects the body of [apr_ldap_init] writes: the record behind
    [*result_err] and the caller's [*ldap]. *)
Record locals : Type := mk_locals {
  l_result : apr_ldap_err_t;
  l_ldap : option LDAP
}.

Definition with_result (l : locals) (r : apr_ldap_err_t) : locals :=
  {| l_result := r; l_ldap := l_ldap l |}.

Definition with_ldap (l : locals) (h : option LDAP) : locals :=
  {| l_result := l_result l; l_ldap := h |}.

(** A block of the body either falls through to the next one or executes a
    [return]. *)
Inductive flow : Type :=
| Next (l : locals)
| Return (status : Z) (l : locals).

Section Init.

Context {S : Type} (tk : toolkit S) (k : constants) (b : build).

Definition and_then (m : Eff.M S flow) (f : locals -> Eff.M S flow) : Eff.M S flow :=
  o <- m ;;
  match o with
  | Next l => f l
  | Return st l => Eff.ret (Return st l)
  end.

(** Lines 273-281, the Novell and Netscape toolkits. *)
Definition init_novell_netscape (hostname : string) (portno : Z) (l : locals)
  : Eff.M S flow :=
  if APR_HAS_NOVELL_LDAPSDK b || APR_HAS_NETSCAPE_LDAPSDK b then
    if APR_HAS_LDAPSSL_INIT b then
      h <- Eff.call (call_ldapssl_init hostname portno 1)
                    (ldapssl_init tk hostname portno 1) ;;
      Eff.ret (Next (with_ldap l h))
    else
      Eff.ret (Return (APR_ENOTIMPL k) (with_result l (set_reason (l_result l)
        "LDAP: SSL not yet supported by APR on this version of the Novell/Netscape toolkit")))
  else Eff.ret (Next l).

(** Lines 284-304, the OpenLDAP toolkit. *)
Definition init_openldap (hostname : string) (portno : Z) (l : locals)
  : Eff.M S flow :=
  if APR_HAS_OPENLDAP_LDAPSDK b then
    match LDAP_OPT_X_TLS b with
    | Some opt =>
        h <- Eff.call (call_ldap_init hostname portno) (ldap_init tk hostname portno) ;;
        let l := with_ldap l h in
        match h with
        | Some ld =>
            let SSLmode := LDAP_OPT_X_TLS_HARD k in
            r <- Eff.call (call_ldap_set_option (Some ld) opt (in_int SSLmode))
                          (ldap_set_option tk (Some ld) opt (in_int SSLmode)) ;;
            let result := set_rc (l_result l) r in
            if negb (LDAP_SUCCESS k =? rc result) then
              Eff.call_ (call_ldap_unbind_s ld) (ldap_unbind_s tk ld) ;;;
              let result := set_reason result
                "LDAP: ldap_set_option - LDAP_OPT_X_TLS_HARD failed" in
              m <- Eff.pure_call (call_ldap_err2string (rc result))
                                 (ldap_err2string tk (rc result)) ;;
              let result := set_msg result m in
              Eff.ret (Return (APR_EGENERAL k) {| l_result := result; l_ldap := None |})
            else Eff.ret (Next (with_result l result))
        | None => Eff.ret (Next l)
        end
    | None =>
        Eff.ret (Return (APR_ENOTIMPL k) (with_result l (set_reason (l_result l)
          "LDAP: SSL not yet supported by APR on this version of the OpenLDAP toolkit")))
    end
  else Eff.ret (Next l).

(** Lines 307-315, the Microsoft toolkit. *)
Definition init_microsoft (hostname : string) (portno : Z) (l : locals)
  : Eff.M S flow :=
  if APR_HAS_MICROSOFT_LDAPSDK b then
    if APR_HAS_LDAP_SSLINIT b then
      h <- Eff.call (call_ldap_sslinit hostname portno 1)
                    (ldap_sslinit tk hostname portno 1) ;;
      Eff.ret (Next (with_ldap l h))
    else
      Eff.ret (Return (APR_ENOTIMPL k) (with_result l (set_reason (l_result l)
        "LDAP: SSL not yet supported by APR on this version of the Microsoft toolkit")))
  else Eff.ret (Next l).

(** Lines 318-322, the Sun toolkit. *)
Definition init_solaris (l : locals) : Eff.M S flow :=
  if APR_HAS_SOLARIS_LDAPSDK b then
    Eff.ret (Return (APR_ENOTIMPL k) (with_result l (set_reason (l_result l)
      "LDAP: SSL not yet supported by APR on this version of the Sun toolkit")))
  else Eff.ret (Next l).

(** Lines 325-327, an unknown toolkit. *)
Definition init_other (l : locals) : Eff.M S flow :=
  if APR_HAS_OTHER_LDAPSDK b
  then Eff.ret (Return (APR_ENOTIMPL k) l)
  else Eff.ret (Next l).

(** Lines 266-330: the clear or the SSL connection.  [secure] is an [int],
    [!secure] holds when it is zero.  With [APR_HAS_LDAP_SSL] off the [else]
    branch is empty. *)
Definition init_connect (hostname : string) (portno : Z) (secure : Z) (l : locals)
  : Eff.M S flow :=
  if secure =? 0 then
    h <- Eff.call (call_ldap_init hostname portno) (ldap_init tk hostname portno) ;;
    Eff.ret (Next (with_ldap l h))
  else if APR_HAS_LDAP_SSL b then
    and_then (init_novell_netscape hostname portno l) (fun l =>
    and_then (init_openldap hostname portno l) (fun l =>
    and_then (init_microsoft hostname portno l) (fun l =>
    and_then (init_solaris l) init_other)))
  else Eff.ret (Next l).

(** What the caller has after [apr_ldap_init]: the returned [int], the record
    in [*result_err] and the content of [*ldap]. *)
Record init_outcome : Type := mk_outcome {
  status : Z;
  result_err : apr_ldap_err_t;
  ldap_out : option LDAP
}.

Definition outcome (st : Z) (l : locals) : init_outcome :=
  {| status := st; result_err := l_result l; ldap_out := l_ldap l |}.

(** Lines 335-340: a NULL handle gives the error of the OS. *)
Definition init_finish (l : locals) : Eff.M S init_outcome :=
  match l_ldap l with
  | None => e <- Eff.get (apr_get_os_error tk) ;; Eff.ret (outcome e l)
  | Some _ => Eff.ret (outcome (APR_SUCCESS k) l)
  end.

(** [apr_ldap_init(pool, ldap, hostname, portno, secure, result_err)].
    [ldap_in] is what [*ldap] holds when the function is entered. *)
Definition apr_ldap_init (ldap_in : option LDAP) (hostname : string) (portno : Z)
           (secure : Z) : Eff.M S init_outcome :=
  let l := {| l_result := apr_pcalloc_err; l_ldap := ldap_in |} in
  o <- init_connect hostname portno secure l ;;
  match o with
  | Return st l => Eff.ret (outcome st l)
  | Next l => init_finish l
  end.

End Init.

(** ** Toolkit variants *)

(** The SDK the build selected: one of the six [APR_HAS_*_LDAPSDK] macros. *)
Inductive ToolkitVariant : Type :=
| NetscapeStyle
| NovellStyle
| OpenLDAPStyle
| MicrosoftStyle
| SolarisStyle
| Unrecognized.

Definition sdk_macros (b : build) : list bool :=
  [ APR_HAS_NETSCAPE_LDAPSDK b; APR_HAS_NOVELL_LDAPSDK b; APR_HAS_OPENLDAP_LDAPSDK b;
    APR_HAS_MICROSOFT_LDAPSDK b; APR_HAS_SOLARIS_LDAPSDK b; APR_HAS_OTHER_LDAPSDK b ].

Definition macros_of (v : ToolkitVariant) : list bool :=
  match v with
  | NetscapeStyle  => [true; false; false; false; false; false]
  | NovellStyle    => [false; true; false; false; false; false]
  | OpenLDAPStyle  => [false; false; true; false; false; false]
  | MicrosoftStyle => [false; false; false; true; false; false]
  | SolarisStyle   => [false; false; false; false; true; false]
  | Unrecognized   => [false; false; false; false; false; true]
  end.

Definition list_bool_eqb (x y : list bool) : bool :=
  if list_eq_dec Bool.bool_dec x y then true else false.

(** Build [b] is a build of variant [v]: exactly the SDK macro of [v] is on.
    The macro of line 72, [APR_HAS_NETSCAPE_LDAPSK], is left free in a
    Netscape build and is off in every other. *)
Definition sdk_selected (v : ToolkitVariant) (b : build) : bool :=
  list_bool_eqb (sdk_macros b) (macros_of v)
  && implb (APR_HAS_NETSCAPE_LDAPSK b) (APR_HAS_NETSCAPE_LDAPSDK b).

(** A build of variant [v] with every optional SDK function and option
    present; [ssl] is [APR_HAS_LDAP_SSL], [sk] the macro of line 72. *)
Definition full_build (v : ToolkitVariant) (ssl sk : bool) : build :=
  match macros_of v with
  | [n; nv; o; m; s; u] =>
      {| APR_HAS_LDAP_SSL := ssl;
         APR_HAS_NETSCAPE_LDAPSK := sk && n;
         APR_HAS_LDAP_SSL_CLIENT_INIT := sk && n;
         APR_HAS_NETSCAPE_LDAPSDK := n;
         APR_HAS_NOVELL_LDAPSDK := nv;
         APR_HAS_OPENLDAP_LDAPSDK := o;
         APR_HAS_MICROSOFT_LDAPSDK := m;
         APR_HAS_SOLARIS_LDAPSDK := s;
         APR_HAS_OTHER_LDAPSDK := u;
         APR_HAS_LDAPSSL_CLIENT_INIT := true;
         APR_HAS_LDAPSSL_ADD_TRUSTED_CERT := true;
         APR_HAS_LDAPSSL_CLIENT_DEINIT := nv;
         APR_HAS_LDAPSSL_INIT := true;
         APR_HAS_LDAP_SSLINIT := true;
         LDAP_OPT_X_TLS_CACERTFILE := Some 24578;
         LDAP_OPT_X_TLS := Some 24576 |}
  | _ =>
      mk_build false false false false false false false false false
               false false false false false None None
  end.

(** ** A scripted toolkit *)

(** Modelled from the spec: the trust store of a stateful toolkit, which is
    held by the vendor library and not by this file.  "TrustStoreState
    (conceptual, process-wide): Uninitialized -> ClientInitialized ->
    CertsLoaded(n)." *)
Inductive TrustStoreState : Type :=
| Uninitialized
| ClientInitialized
| CertsLoaded (n : nat).

Module Double.

(** What the scripted toolkit answers.  A successful [ldapssl_client_init]
    initialises the store, a successful [ldapssl_add_trusted_cert] or
    [ldap_set_option] of a certificate file loads one certificate,
    [ldapssl_client_deinit] empties the store; opening a connection records
    the handle and [ldap_unbind_s] forgets it. *)
Record script : Type := mk_script {
  client_init_rc : Z;
  add_cert_rc : Z;
  set_option_rc : Z;
  opened : option LDAP;
  os_error : Z
}.

Record world : Type := mk_world {
  store : TrustStoreState;
  open_handles : list LDAP
}.

(** One more certificate in the store. *)
Definition loaded (t : TrustStoreState) : TrustStoreState :=
  match t with
  | CertsLoaded n => CertsLoaded (Datatypes.S n)
  | _ => CertsLoaded 1
  end.

Definition initialised (t : TrustStoreState) : TrustStoreState :=
  match t with
  | Uninitialized => ClientInitialized
  | _ => t
  end.

Definition open_ (sc : script) (w : world) : option LDAP * world :=
  match opened sc with
  | Some h => (Some h, {| store := store w; open_handles := h :: open_handles w |})
  | None => (None, w)
  end.

Definition sdk (sc : script) : toolkit world :=
  {| ldapssl_client_init := fun _ w =>
       (client_init_rc sc,
        if client_init_rc sc =? 0
        then {| store := initialised (store w); open_handles := open_handles w |}
        else w);
     ldapssl_add_trusted_cert := fun _ _ w =>
       (add_cert_rc sc,
        if add_cert_rc sc =? 0
        then {| store := loaded (store w); open_handles := open_handles w |}
        else w);
     ldapssl_client_deinit := fun w =>
       {| store := Uninitialized; open_handles := open_handles w |};
     ldap_set_option := fun _ _ v w =>
       (set_option_rc sc,
        match v with
        | in_string _ =>
            if set_option_rc sc =? 0
            then {| store := loaded (store w); open_handles := open_handles w |}
            else w
        | in_int _ => w
        end);
     ldap_init := fun _ _ w => open_ sc w;
     ldapssl_init := fun _ _ _ w => open_ sc w;
     ldap_sslinit := fun _ _ _ w => open_ sc w;
     ldap_unbind_s := fun h w =>
       {| store := store w;
          open_handles := List.filter (fun x => negb (Nat.eqb x h)) (open_handles w) |};
     ldap_err2string := fun z => if z =? 0 then "Success" else "Error";
     apr_get_os_error := fun _ => os_error sc |}.

(** The values of apr_errno.h, apr_ldap.h and ldap.h used in the examples. *)
Definition consts : constants :=
  {| APR_SUCCESS := 0;
     APR_EGENERAL := 20014;
     APR_ENOTIMPL := 70023;
     LDAP_SUCCESS := 0;
     APR_LDAP_CA_TYPE_DER := 1;
     APR_LDAP_CA_TYPE_BASE64 := 2;
     APR_LDAP_CA_TYPE_CERT7_DB := 3;
     LDAPSSL_CERT_FILETYPE_B64 := 1;
     LDAPSSL_CERT_FILETYPE_DER := 2;
     LDAP_OPT_X_TLS_HARD := 1;
     LDAP_VENDOR_NAME := "OpenLDAP" |}.

Definition fresh : world := {| store := Uninitialized; open_handles := [] |}.

(** Every native call succeeds and the open returns handle 7. *)
Definition all_ok : script :=
  {| client_init_rc := 0; add_cert_rc := 0; set_option_rc := 0;
     opened := Some 7%nat; os_error := 0 |}.

(** [ldapssl_add_trusted_cert] fails with code 1. *)
Definition add_fails : script :=
  {| client_init_rc := 0; add_cert_rc := 1; set_option_rc := 0;
     opened := Some 7%nat; os_error := 0 |}.

(** [ldap_set_option] fails with code 1. *)
Definition set_option_fails : script :=
  {| client_init_rc := 0; add_cert_rc := 0; set_option_rc := 1;
     opened := Some 7%nat; os_error := 0 |}.

(** No host answers: the open returns NULL and the OS reports error 111. *)
Definition unreachable : script :=
  {| client_init_rc := 0; add_cert_rc := 0; set_option_rc := 0;
     opened := None; os_error := 111 |}.

(** A trust store that already holds two certificates. *)
Definition two_certs : world := {| store := CertsLoaded 2; open_handles := [] |}.

End Double.

(** ** Observations on recorded calls *)

(** A call that tries to open a connection. *)
Definition is_open_call (c : native_call) : bool :=
  match c with
  | call_ldap_init _ _ | call_ldapssl_init _ _ _ | call_ldap_sslinit _ _ _ => true
  | _ => false
  end.

(** A call that tears a connection down. *)
Definition is_unbind_call (c : native_call) : bool :=
  match c with
  | call_ldap_unbind_s _ => true
  | _ => false
  end.

(** A call that hands a certificate file or database to the toolkit. *)
Definition loads_certificate (c : native_call) : bool :=
  match c with
  | call_ldapssl_client_init (Some _) => true
  | call_ldapssl_add_trusted_cert _ _ => true
  | call_ldap_set_option _ _ (in_string _) => true
  | _ => false
  end.

(** The certificate files and databases a list of calls hands to the
    toolkit, oldest first. *)
Definition certificates (cs : list native_call) : list string :=
  flat_map (fun c =>
              match c with
              | call_ldapssl_client_init (Some f) => [f]
              | call_ldapssl_add_trusted_cert f _ => [f]
              | call_ldap_set_option _ _ (in_string f) => [f]
              | _ => []
              end) cs.

(** A call that changes what the toolkit trusts: the initialisation or the
    tear-down of the SSL client, or a certificate handed over. *)
Definition is_trust_call (c : native_call) : bool :=
  match c with
  | call_ldapssl_client_init _ => true
  | call_ldapssl_client_deinit => true
  | _ => loads_certificate c
  end.

(** A call on a connection: opening one, unbinding one, or setting an option
    on a handle. *)
Definition is_connection_call (c : native_call) : bool :=
  match c with
  | call_ldap_set_option (Some _) _ _ => true
  | _ => is_open_call c || is_unbind_call c
  end.

(** The build of variant [v] has no way to open a secure connection: the
    entry point lines 273-315 would call is not there, or the toolkit is one
    of lines 317-327. *)
Definition lacks_secure_open (v : ToolkitVariant) (b : build) : bool :=
  match v with
  | NetscapeStyle | NovellStyle => negb (APR_HAS_LDAPSSL_INIT b)
  | OpenLDAPStyle => match LDAP_OPT_X_TLS b with Some _ => false | None => true end
  | MicrosoftStyle => negb (APR_HAS_LDAP_SSLINIT b)
  | SolarisStyle | Unrecognized => true
  end.

(** * Properties *)

(** ** Reading a build *)

Lemma sdk_selected_macros (v : ToolkitVariant) (b : build) :
  sdk_selected v b = true ->
  sdk_macros b = macros_of v /\
  (APR_HAS_NETSCAPE_LDAPSDK b = false -> APR_HAS_NETSCAPE_LDAPSK b = false).
Proof.
  unfold sdk_selected, list_bool_eqb. intros H.
  apply andb_true_iff in H. destruct H as [Hm Hk].
  destruct (list_eq_dec Bool.bool_dec (sdk_macros b) (macros_of v)) as [E|E];
    [|discriminate].
  split; [exact E|]. intros Hn. rewrite Hn in Hk.
  destruct (APR_HAS_NETSCAPE_LDAPSK b); [discriminate|reflexivity].
Qed.

(** Replace the six SDK macros of [b] by their values in a build of [v]. *)
Ltac read_build H :=
  let Hm := fresh "Hm" in
  let Hk := fresh "Hk" in
  apply sdk_selected_macros in H; destruct H as [Hm Hk];
  match type of Hm with
  | sdk_macros ?b = _ =>
      destruct b; unfold sdk_macros in Hm; cbn in Hm, Hk;
      injection Hm as -> -> -> -> -> ->;
      try (specialize (Hk eq_refl); subst)
  end.

(** Run the embedding: unfold the blocks and the effect operations. *)
Ltac run :=
  unfold apr_ldap_ssl_init, ssl_init_blocks, ssl_init_finish, ssl_init_netscape,
    ssl_init_novell, ssl_init_openldap, ssl_init_microsoft, ssl_init_solaris,
    ssl_init_other, ssl_init_nossl, apr_ldap_ssl_deinit, apr_ldap_init,
    init_connect, init_finish, init_novell_netscape, init_openldap,
    init_microsoft, init_solaris, init_other, and_then, outcome, with_result,
    with_ldap, Eff.bind, Eff.ret, Eff.call, Eff.call_, Eff.pure_call, Eff.get,
    value, state, calls, set_rc, set_reason, set_msg, apr_pcalloc_err;
  cbn.

(** Decide one test that is left: a comparison of a value with itself, a
    condition that is not itself a conditional, or an optional value, by
    cases. *)
Ltac step :=
  first
    [ rewrite Z.eqb_refl
    | match goal with
      | |- context [if ?c then _ else _] =>
          lazymatch c with
          | context [if _ then _ else _] => fail
          | _ => destruct c eqn:?
          end
      | |- context [match ?x with Some _ => _ | None => _ end] =>
          is_var x; destruct x
      end ];
  cbn.

Ltac by_cases := cbn; repeat step.

Lemma Zeqb_neq_false (x y : Z) : x <> y -> (x =? y) = false.
Proof. intros H. apply Z.eqb_neq. exact H. Qed.

(** [full_build] is a build of the variant it is given. *)
Lemma full_build_selected (v : ToolkitVariant) (ssl sk : bool) :
  sdk_selected v (full_build v ssl sk) = true.
Proof. destruct v, ssl, sk; reflexivity. Qed.

(** ** The scenarios of the documentation *)

(** OpenLDAP, a BASE64 file: one [ldap_set_option] of the file, success, and
    the decoded success code in [msg]. *)
Example openldap_base64_file :
  apr_ldap_ssl_init (Double.sdk Double.all_ok) Double.consts
    (full_build OpenLDAPStyle true false) (Some "/ca.pem") 2 Double.fresh
  = ((0, {| reason := None; msg := Some "Success"; rc := 0 |}),
     {| Double.store := CertsLoaded 1; Double.open_handles := [] |},
     [call_ldap_set_option None 24578 (in_string "/ca.pem"); call_ldap_err2string 0]).
Proof. reflexivity. Qed.

(** Novell, the call with NULL and then two certificates, lines 47-49. *)
Example novell_null_then_two_files :
  let tk := Double.sdk Double.all_ok in
  let b := full_build NovellStyle true false in
  let w1 := state (apr_ldap_ssl_init tk Double.consts b None 0 Double.fresh) in
  let w2 := state (apr_ldap_ssl_init tk Double.consts b (Some "/ca1.pem") 2 w1) in
  let w3 := state (apr_ldap_ssl_init tk Double.consts b (Some "/ca2.der") 1 w2) in
  Double.store w1 = ClientInitialized
  /\ Double.store w2 = CertsLoaded 1
  /\ Double.store w3 = CertsLoaded 2.
Proof. cbn. repeat split. Qed.

(** [apr_ldap_info] names the SDK in [reason]. *)
Example info_names_the_sdk :
  apr_ldap_info (S := Double.world) Double.consts Double.fresh
  = ((0, {| reason := Some "APR LDAP: Built with OpenLDAP LDAP SDK";
            msg := None; rc := 0 |}),
     Double.fresh, []).
Proof. reflexivity. Qed.

(** ** The status of apr_ldap_ssl_init *)

(** The returned [int] is decided by the comparison of [rc] with
    [LDAP_SUCCESS], in every build. *)
Lemma ssl_init_status_by_rc {S : Type} (tk : toolkit S) (k : constants) (b : build)
      (file : option string) (ty : Z) (s : S) :
  let o := apr_ldap_ssl_init tk k b file ty s in
  fst (value o) =
    if rc (snd (value o)) =? LDAP_SUCCESS k then APR_SUCCESS k else APR_EGENERAL k.
Proof.
  unfold apr_ldap_ssl_init, Eff.bind.
  destruct (ssl_init_blocks tk k b file ty s) as [[r s1] c1].
  cbv [ssl_init_finish Eff.bind Eff.pure_call Eff.ret value fst snd].
  destruct (rc r =? -1); cbn; rewrite (Z.eqb_sym (LDAP_SUCCESS k));
    destruct (rc r =? LDAP_SUCCESS k) eqn:E; cbn; rewrite ?E; reflexivity.
Qed.

(** C9: in every build and for every input [apr_ldap_ssl_init] returns
    [APR_SUCCESS] or [APR_EGENERAL], [APR_SUCCESS] exactly when the [rc] of
    the result is [LDAP_SUCCESS]; it never returns [APR_ENOTIMPL]; and a
    toolkit without the capability (no SSL in the build, the Sun toolkit, an
    unrecognised toolkit) asked to set a certificate reports [APR_EGENERAL]
    with [rc = -1].  The three status codes are distinct in apr_errno.h and
    [LDAP_SUCCESS] is not the sentinel. *)
Theorem ssl_init_success_or_general {S : Type} (tk : toolkit S) (k : constants)
        (b : build) (file : option string) (ty : Z) (s : S) :
  APR_ENOTIMPL k <> APR_SUCCESS k ->
  APR_ENOTIMPL k <> APR_EGENERAL k ->
  LDAP_SUCCESS k <> -1 ->
  let o := apr_ldap_ssl_init tk k b file ty s in
  fst (value o) =
    (if rc (snd (value o)) =? LDAP_SUCCESS k then APR_SUCCESS k else APR_EGENERAL k)
  /\ (fst (value o) = APR_SUCCESS k \/ fst (value o) = APR_EGENERAL k)
  /\ fst (value o) <> APR_ENOTIMPL k
  /\ (file <> None ->
      APR_HAS_LDAP_SSL b = false \/ sdk_selected SolarisStyle b = true
        \/ sdk_selected Unrecognized b = true ->
      rc (snd (value o)) = -1 /\ fst (value o) = APR_EGENERAL k).
Proof.
  intros Hs He Hl o.
  pose proof (ssl_init_status_by_rc tk k b file ty s) as Hst.
  fold o in Hst. cbv zeta in Hst.
  assert (Hgap : file <> None ->
      APR_HAS_LDAP_SSL b = false \/ sdk_selected SolarisStyle b = true
        \/ sdk_selected Unrecognized b = true ->
      rc (snd (value o)) = -1).
  { intros Hf Hb. destruct file as [path|]; [clear Hf|congruence].
    subst o. destruct Hb as [Hb|[Hb|Hb]].
    - destruct b; cbn in Hb; subst. run. by_cases; reflexivity.
    - read_build Hb. destruct APR_HAS_LDAP_SSL0; run; by_cases; reflexivity.
    - read_build Hb. destruct APR_HAS_LDAP_SSL0; run; by_cases; reflexivity. }
  split; [exact Hst|]. split; [|split].
  - rewrite Hst. destruct (rc (snd (value o)) =? LDAP_SUCCESS k); auto.
  - rewrite Hst. destruct (rc (snd (value o)) =? LDAP_SUCCESS k); congruence.
  - intros Hf Hb. specialize (Hgap Hf Hb). split; [exact Hgap|].
    rewrite Hst, Hgap. rewrite Z.eqb_sym, (Zeqb_neq_false _ _ Hl). reflexivity.
Qed.

(** ** Calls that do not name a certificate *)

(** C10: in a build of any variant but Novell, with or without SSL, and in
    a build without SSL of any variant, [apr_ldap_ssl_init] with a NULL
    [cert_auth_file] returns [APR_SUCCESS], leaves [rc] at [LDAP_SUCCESS]
    and [reason] NULL, whatever [cert_file_type] is, and does not change the
    toolkit state.  The [rc] of the fresh record is the zero of
    [apr_pcalloc], so this is the case because [LDAP_SUCCESS] is zero. *)
Theorem ssl_init_null_file_succeeds {S : Type} (tk : toolkit S) (k : constants)
        (v : ToolkitVariant) (b : build) (ty : Z) (s : S) :
  sdk_selected v b = true ->
  v <> NovellStyle \/ APR_HAS_LDAP_SSL b = false ->
  LDAP_SUCCESS k = 0 ->
  let o := apr_ldap_ssl_init tk k b None ty s in
  fst (value o) = APR_SUCCESS k
  /\ rc (snd (value o)) = LDAP_SUCCESS k
  /\ reason (snd (value o)) = None
  /\ state o = s.
Proof.
  intros Hb Hv Hl o. subst o.
  destruct v; read_build Hb; cbn in Hv;
    destruct APR_HAS_LDAP_SSL0; try destruct APR_HAS_NETSCAPE_LDAPSK0;
    try (destruct Hv; congruence);
    run; rewrite ?Hl; cbn; auto.
Qed.

(** C8, amended: in a Microsoft build with SSL compiled in,
    [apr_ldap_ssl_init] returns [APR_SUCCESS] with [rc = LDAP_SUCCESS] for
    every [cert_auth_file] and every [cert_file_type], and the two arguments
    are ignored: the call does what the call with a NULL file and type 0
    does. *)
Theorem ssl_init_microsoft_always_succeeds {S : Type} (tk : toolkit S) (k : constants)
        (b : build) (file : option string) (ty : Z) (s : S) :
  sdk_selected MicrosoftStyle b = true ->
  APR_HAS_LDAP_SSL b = true ->
  let o := apr_ldap_ssl_init tk k b file ty s in
  fst (value o) = APR_SUCCESS k
  /\ rc (snd (value o)) = LDAP_SUCCESS k
  /\ reason (snd (value o)) = None
  /\ o = apr_ldap_ssl_init tk k b None 0 s.
Proof.
  intros Hb Hssl o. subst o.
  read_build Hb. cbn in Hssl. subst.
  destruct file; run; by_cases; auto.
Qed.

(** ** Roll-back on the Novell toolkit *)

(** C4: in a Novell build with SSL and the three SDK functions, when the
    certificate type is DER or BASE64, [ldapssl_client_init] succeeds and
    [ldapssl_add_trusted_cert] returns a code [r2] that is not
    [LDAP_SUCCESS], then [apr_ldap_ssl_init] calls [ldapssl_client_deinit]
    after the failed add and before it returns: the native calls are init,
    add, deinit (and the decoding of [r2]), the toolkit is left in the state
    [ldapssl_client_deinit] produced, the result carries [r2] and a reason,
    and the status is [APR_EGENERAL].  For a toolkit whose
    [ldapssl_client_deinit] empties the trust store, the store is
    [Uninitialized] on return. *)
Theorem ssl_init_novell_add_failure_deinit {S : Type} (tk : toolkit S) (k : constants)
        (b : build) (path : string) (ty : Z) (s : S)
        (store : S -> TrustStoreState) :
  (forall s0, store (ldapssl_client_deinit tk s0) = Uninitialized) ->
  sdk_selected NovellStyle b = true ->
  APR_HAS_LDAP_SSL b = true ->
  APR_HAS_LDAPSSL_CLIENT_INIT b = true ->
  APR_HAS_LDAPSSL_ADD_TRUSTED_CERT b = true ->
  APR_HAS_LDAPSSL_CLIENT_DEINIT b = true ->
  ty = APR_LDAP_CA_TYPE_DER k \/ ty = APR_LDAP_CA_TYPE_BASE64 k ->
  let i := ldapssl_client_init tk None s in
  let a := ldapssl_add_trusted_cert tk path (novell_filetype k ty) (snd i) in
  fst i = LDAP_SUCCESS k ->
  fst a <> LDAP_SUCCESS k ->
  let o := apr_ldap_ssl_init tk k b (Some path) ty s in
  calls o =
    [ call_ldapssl_client_init None;
      call_ldapssl_add_trusted_cert path (novell_filetype k ty);
      call_ldapssl_client_deinit ]
    ++ (if fst a =? -1 then [] else [call_ldap_err2string (fst a)])
  /\ state o = ldapssl_client_deinit tk (snd a)
  /\ store (state o) = Uninitialized
  /\ fst (value o) = APR_EGENERAL k
  /\ rc (snd (value o)) = fst a
  /\ reason (snd (value o)) =
       Some ("LDAP: Invalid certificate or path: Could not add trusted cert " ++ path)%string.
Proof.
  intros Hlaw Hb Hssl H1 H2 H3 Hty i a Hi Ha o.
  assert (Hacc : (ty =? APR_LDAP_CA_TYPE_DER k) || (ty =? APR_LDAP_CA_TYPE_BASE64 k) = true).
  { apply orb_true_iff. destruct Hty; subst ty; rewrite Z.eqb_refl; auto. }
  assert (Hne : (LDAP_SUCCESS k =? fst a) = false).
  { apply Zeqb_neq_false. congruence. }
  subst o. read_build Hb. cbn in Hssl, H1, H2, H3. subst.
  run. fold i. destruct i as [r1 s1] eqn:Ei. cbn in Hi, a |- *. subst r1.
  rewrite Z.eqb_refl. cbn. rewrite Hacc. cbn. fold a.
  destruct a as [r2 s2] eqn:Ea. cbn in Ha, Hne |- *.
  rewrite Hne. cbn. destruct (r2 =? -1); cbn; rewrite Hne; cbn;
    repeat split; auto.
Qed.

(** ** Roll-back on the OpenLDAP toolkit *)

(** C3: in an OpenLDAP build with SSL and [LDAP_OPT_X_TLS], when a secure
    connection is asked for, [ldap_init] returns a handle [h] and
    [ldap_set_option] of [LDAP_OPT_X_TLS] to [LDAP_OPT_X_TLS_HARD] on [h]
    returns a code that is not [LDAP_SUCCESS], then [apr_ldap_init] unbinds
    [h], stores NULL in [*ldap] and returns [APR_EGENERAL]; the result
    carries the code, its decoding and a reason. *)
Theorem init_openldap_tls_failure_unbinds {S : Type} (tk : toolkit S) (k : constants)
        (b : build) (ldap_in : option LDAP) (hostname : string) (portno secure : Z)
        (opt : Z) (h : LDAP) (s : S) :
  sdk_selected OpenLDAPStyle b = true ->
  APR_HAS_LDAP_SSL b = true ->
  LDAP_OPT_X_TLS b = Some opt ->
  secure <> 0 ->
  let i := ldap_init tk hostname portno s in
  let t := ldap_set_option tk (Some h) opt (in_int (LDAP_OPT_X_TLS_HARD k)) (snd i) in
  fst i = Some h ->
  fst t <> LDAP_SUCCESS k ->
  let o := apr_ldap_init tk k b ldap_in hostname portno secure s in
  calls o =
    [ call_ldap_init hostname portno;
      call_ldap_set_option (Some h) opt (in_int (LDAP_OPT_X_TLS_HARD k));
      call_ldap_unbind_s h;
      call_ldap_err2string (fst t) ]
  /\ state o = ldap_unbind_s tk h (snd t)
  /\ ldap_out (value o) = None
  /\ status (value o) = APR_EGENERAL k
  /\ result_err (value o) =
       {| reason := Some "LDAP: ldap_set_option - LDAP_OPT_X_TLS_HARD failed";
          msg := Some (ldap_err2string tk (fst t));
          rc := fst t |}.
Proof.
  intros Hb Hssl Hopt Hsec i t Hi Ht o.
  assert (Hne : (LDAP_SUCCESS k =? fst t) = false).
  { apply Zeqb_neq_false. congruence. }
  subst o. read_build Hb. cbn in Hssl, Hopt. subst.
  run. rewrite (Zeqb_neq_false _ _ Hsec). cbn.
  fold i. destruct i as [r1 s1] eqn:Ei. cbn in Hi, t |- *. subst r1. cbn.
  fold t. destruct t as [r2 s2] eqn:Et. cbn in Ht, Hne |- *.
  rewrite Hne. cbn. repeat split; auto.
Qed.

(** ** Certificate types a toolkit does not take *)

(** C2, amended: a certificate file whose type the toolkit does not take.
    On OpenLDAP (every type but BASE64), in every build: [rc = -1], a reason
    is set, no native call is made and the toolkit state is untouched; the
    reason names BASE64 as required when SSL is compiled in and the SDK
    defines [LDAP_OPT_X_TLS_CACERTFILE].  On Novell (every type but DER and
    BASE64): in a build with SSL and the three SDK functions the library is
    initialised first, so [ldapssl_client_init(NULL, NULL)] is called before
    the type is looked at and no certificate reaches the toolkit; when that
    call succeeds it is the one native call and the result is [rc = -1] with
    the reason that names DER or BASE64, when it fails the result carries its
    code and the reason "Could not initialize SSL"; in every other Novell
    build [rc = -1], a reason is set and no native call is made.  In a build
    that compiles the Netscape block of lines 73-91 (the macro of line 72 is
    on), or in a Netscape build without SSL, every type but CERT7_DB gives
    [rc = -1], a reason and no native call; the reason names CERT7_DB when
    SSL is compiled in and the macro of line 74 is on. *)
Theorem ssl_init_rejected_type {S : Type} (tk : toolkit S) (k : constants)
        (b : build) (path : string) (ty : Z) (s : S) :
  let o := apr_ldap_ssl_init tk k b (Some path) ty s in
  let r := snd (value o) in
  (sdk_selected OpenLDAPStyle b = true ->
   ty <> APR_LDAP_CA_TYPE_BASE64 k ->
   rc r = -1 /\ reason r <> None /\ calls o = [] /\ state o = s
   /\ (APR_HAS_LDAP_SSL b = true ->
       LDAP_OPT_X_TLS_CACERTFILE b <> None ->
       reason r = Some "LDAP: Invalid certificate type: BASE64 type required"))
  /\
  (sdk_selected NetscapeStyle b = true ->
   APR_HAS_LDAP_SSL b = false \/ APR_HAS_NETSCAPE_LDAPSK b = true ->
   ty <> APR_LDAP_CA_TYPE_CERT7_DB k ->
   rc r = -1 /\ reason r <> None /\ calls o = [] /\ state o = s
   /\ (APR_HAS_LDAP_SSL b = true ->
       APR_HAS_LDAP_SSL_CLIENT_INIT b = true ->
       reason r = Some "LDAP: Invalid certificate type: CERT7_DB type required"))
  /\
  (sdk_selected NovellStyle b = true ->
   ty <> APR_LDAP_CA_TYPE_DER k ->
   ty <> APR_LDAP_CA_TYPE_BASE64 k ->
   let initialises :=
     APR_HAS_LDAP_SSL b && (APR_HAS_LDAPSSL_CLIENT_INIT b
       && APR_HAS_LDAPSSL_ADD_TRUSTED_CERT b && APR_HAS_LDAPSSL_CLIENT_DEINIT b) in
   let i := ldapssl_client_init tk None s in
   (initialises = false ->
    rc r = -1 /\ reason r <> None /\ calls o = [] /\ state o = s)
   /\
   (initialises = true ->
    hd_error (calls o) = Some (call_ldapssl_client_init None)
    /\ existsb loads_certificate (calls o) = false
    /\ state o = snd i
    /\ (fst i = LDAP_SUCCESS k ->
        rc r = -1
        /\ reason r = Some "LDAP: Invalid certificate type: DER or BASE64 type required"
        /\ calls o = [call_ldapssl_client_init None])
    /\ (fst i <> LDAP_SUCCESS k ->
        rc r = fst i /\ reason r = Some "LDAP: Could not initialize SSL"))).
Proof.
  intros o r. subst r o. split; [|split].
  - intros Hb Hty. apply Zeqb_neq_false in Hty.
    read_build Hb.
    destruct APR_HAS_LDAP_SSL0, LDAP_OPT_X_TLS_CACERTFILE0 as [opt|];
      run; rewrite ?Hty; by_cases;
      repeat split; intros; try discriminate; try congruence; auto.
  - intros Hb Hsk Hty. apply Zeqb_neq_false in Hty.
    read_build Hb.
    destruct APR_HAS_LDAP_SSL0, APR_HAS_NETSCAPE_LDAPSK0;
      try (destruct Hsk; discriminate);
      destruct APR_HAS_LDAP_SSL_CLIENT_INIT0;
      run; rewrite ?Hty; by_cases;
      repeat split; intros; try discriminate; try congruence; auto.
  - intros Hb Hd Hb64 initialises i.
    apply Zeqb_neq_false in Hd. apply Zeqb_neq_false in Hb64.
    read_build Hb. subst initialises. cbn [APR_HAS_LDAP_SSL
      APR_HAS_LDAPSSL_CLIENT_INIT APR_HAS_LDAPSSL_ADD_TRUSTED_CERT
      APR_HAS_LDAPSSL_CLIENT_DEINIT].
    split.
    + intros Hn.
      destruct APR_HAS_LDAP_SSL0; cbn in Hn; run; [rewrite Hn; cbn|];
        by_cases; repeat split; intros; try discriminate; auto.
    + intros Hy. apply andb_true_iff in Hy. destruct Hy as [Hssl Hf]. subst.
      run. rewrite Hf. cbn. fold i. destruct i as [r1 s1]. cbn.
      destruct (LDAP_SUCCESS k =? r1) eqn:E; cbn.
      * apply Z.eqb_eq in E. rewrite Hd, Hb64. cbn.
        by_cases; repeat split; intros; try congruence; auto.
      * apply Z.eqb_neq in E.
        by_cases; repeat split; intros; try congruence; auto.
Qed.

(** ** The final check of apr_ldap_init *)

(** Decide what a native call returned by cases. *)
Ltac native :=
  match goal with
  | |- context [ldap_init ?tk ?h ?p ?s] =>
      destruct (ldap_init tk h p s) as [[?|] ?] eqn:?
  | |- context [ldapssl_init ?tk ?h ?p ?f ?s] =>
      destruct (ldapssl_init tk h p f s) as [[?|] ?] eqn:?
  | |- context [ldap_sslinit ?tk ?h ?p ?f ?s] =>
      destruct (ldap_sslinit tk h p f s) as [[?|] ?] eqn:?
  | |- context [ldap_set_option ?tk ?l ?o ?v ?s] =>
      destruct (ldap_set_option tk l o v s) as [? ?] eqn:?
  end; cbn.

(** A clear connection does not depend on the build: the one native call is
    [ldap_init], its handle is stored in [*ldap], and the status is the error
    of the operating system for a NULL handle and [APR_SUCCESS] otherwise. *)
Lemma init_clear_connection {S : Type} (tk : toolkit S) (k : constants)
      (b : build) (ldap_in : option LDAP) (hostname : string) (portno : Z) (s : S) :
  let i := ldap_init tk hostname portno s in
  let o := apr_ldap_init tk k b ldap_in hostname portno 0 s in
  calls o = [call_ldap_init hostname portno]
  /\ state o = snd i
  /\ ldap_out (value o) = fst i
  /\ result_err (value o) = apr_pcalloc_err
  /\ status (value o) =
       match fst i with
       | None => apr_get_os_error tk (snd i)
       | Some _ => APR_SUCCESS k
       end.
Proof.
  intros i o. subst o. run. fold i. destruct i as [[h|] s1]; cbn; auto.
Qed.

(** C6, amended: in a build of any variant, when [apr_ldap_init] has made
    its attempt to open a connection and has not torn the connection down
    (it did not return early), it returns the error of the operating system
    if [*ldap] is NULL and [APR_SUCCESS] if it is not. *)
Theorem init_status_after_open {S : Type} (tk : toolkit S) (k : constants)
        (v : ToolkitVariant) (b : build) (ldap_in : option LDAP)
        (hostname : string) (portno secure : Z) (s : S) :
  sdk_selected v b = true ->
  let o := apr_ldap_init tk k b ldap_in hostname portno secure s in
  existsb is_open_call (calls o) = true ->
  existsb is_unbind_call (calls o) = false ->
  status (value o) =
    match ldap_out (value o) with
    | None => apr_get_os_error tk (state o)
    | Some _ => APR_SUCCESS k
    end.
Proof.
  intros Hb o. subst o.
  destruct v; read_build Hb;
    destruct APR_HAS_LDAP_SSL0;
    run; repeat (first [step | native]);
    intros; try discriminate; try reflexivity.
Qed.

(** ** apr_ldap_ssl_deinit *)

(** C7, amended: [apr_ldap_ssl_deinit] returns [APR_SUCCESS] from every
    state, a second call returns [APR_SUCCESS] too and leaves the trust store
    as the first call left it.  In a build with SSL and
    [ldapssl_client_deinit] (the stateful toolkit) the one native call is
    [ldapssl_client_deinit], so the trust store is [Uninitialized]
    afterwards; in any other build the function makes no call and leaves
    the state as it was.  The toolkit is one whose [ldapssl_client_deinit]
    empties the trust store. *)
Theorem ssl_deinit_resets_and_is_idempotent {S : Type} (tk : toolkit S)
        (k : constants) (b : build) (store : S -> TrustStoreState) (s : S) :
  (forall s0, store (ldapssl_client_deinit tk s0) = Uninitialized) ->
  let once := apr_ldap_ssl_deinit tk k b s in
  let twice := apr_ldap_ssl_deinit tk k b (state once) in
  value once = APR_SUCCESS k
  /\ value twice = APR_SUCCESS k
  /\ store (state twice) = store (state once)
  /\ (APR_HAS_LDAP_SSL b = true -> APR_HAS_LDAPSSL_CLIENT_DEINIT b = true ->
      calls once = [call_ldapssl_client_deinit]
      /\ state once = ldapssl_client_deinit tk s
      /\ store (state once) = Uninitialized)
  /\ (APR_HAS_LDAP_SSL b && APR_HAS_LDAPSSL_CLIENT_DEINIT b = false ->
      calls once = [] /\ state once = s).
Proof.
  intros Hlaw once twice. subst twice once.
  unfold apr_ldap_ssl_deinit.
  destruct (APR_HAS_LDAP_SSL b), (APR_HAS_LDAPSSL_CLIENT_DEINIT b); run;
    rewrite ?Hlaw; repeat split; intros; try discriminate; auto.
Qed.

(** ** Secure connections the build cannot make *)

(** On the Sun toolkit and on an unrecognised toolkit, with SSL compiled in,
    a secure [apr_ldap_init] returns [APR_ENOTIMPL] without any native call
    and without writing [*ldap]. *)
Lemma init_secure_unsupported_sdk {S : Type} (tk : toolkit S) (k : constants)
      (v : ToolkitVariant) (b : build) (ldap_in : option LDAP)
      (hostname : string) (portno secure : Z) (s : S) :
  sdk_selected v b = true ->
  v = SolarisStyle \/ v = Unrecognized ->
  APR_HAS_LDAP_SSL b = true ->
  secure <> 0 ->
  let o := apr_ldap_init tk k b ldap_in hostname portno secure s in
  status (value o) = APR_ENOTIMPL k
  /\ calls o = [] /\ state o = s
  /\ ldap_out (value o) = ldap_in.
Proof.
  intros Hb Hv Hssl Hsec o. subst o. apply Zeqb_neq_false in Hsec.
  destruct Hv; subst v; read_build Hb; cbn in Hssl; subst;
    run; rewrite Hsec; cbn; auto.
Qed.

(** Without SSL in the build the [else] branch of line 269 is empty: a
    secure [apr_ldap_init] makes no native call, leaves [*ldap] as the caller
    had it and goes on to the final check, which returns the error of the
    operating system for a NULL [*ldap] and [APR_SUCCESS] otherwise. *)
Lemma init_secure_without_ssl {S : Type} (tk : toolkit S) (k : constants)
      (b : build) (ldap_in : option LDAP)
      (hostname : string) (portno secure : Z) (s : S) :
  APR_HAS_LDAP_SSL b = false ->
  secure <> 0 ->
  let o := apr_ldap_init tk k b ldap_in hostname portno secure s in
  status (value o) =
    match ldap_in with
    | None => apr_get_os_error tk s
    | Some _ => APR_SUCCESS k
    end
  /\ calls o = [] /\ state o = s
  /\ ldap_out (value o) = ldap_in
  /\ result_err (value o) = apr_pcalloc_err.
Proof.
  intros Hssl Hsec o. subst o. apply Zeqb_neq_false in Hsec.
  destruct b; cbn in Hssl; subst. run. rewrite Hsec. cbn.
  destruct ldap_in; cbn; auto.
Qed.

(** C1, at a failing input: an OpenLDAP build without SSL, a secure
    connection to ldap.example.org:636, [*ldap] NULL on entry and no pending
    OS error.  [apr_ldap_init] returns 0, which is [APR_SUCCESS], not
    [APR_ENOTIMPL]; it makes no native call and the handle stays NULL. *)
Lemma init_secure_without_ssl_returns_os_error :
  let o := apr_ldap_init (Double.sdk Double.all_ok) Double.consts
             (full_build OpenLDAPStyle false false)
             None "ldap.example.org" 636 1 Double.fresh in
  status (value o) = 0
  /\ status (value o) <> APR_ENOTIMPL Double.consts
  /\ ldap_out (value o) = None
  /\ calls o = [].
Proof.
  cbn. repeat split. discriminate.
Qed.

(** ** Toolkit failures that leave no reason *)

(** C5, at a failing input: an OpenLDAP build with SSL, the file /ca.pem of
    type BASE64, and an [ldap_set_option] that fails with code 1.
    [apr_ldap_ssl_init] returns [APR_EGENERAL] and the result has the code and
    its decoding but no reason. *)
Lemma ssl_init_openldap_failure_without_reason :
  let o := apr_ldap_ssl_init (Double.sdk Double.set_option_fails) Double.consts
             (full_build OpenLDAPStyle true false)
             (Some "/ca.pem") (APR_LDAP_CA_TYPE_BASE64 Double.consts) Double.fresh in
  fst (value o) = APR_EGENERAL Double.consts
  /\ snd (value o) = {| reason := None; msg := Some "Error"; rc := 1 |}
  /\ calls o = [ call_ldap_set_option None 24578 (in_string "/ca.pem");
                 call_ldap_err2string 1 ].
Proof.
  cbn. repeat split.
Qed.

(** The same holds for every toolkit: on OpenLDAP a failed
    [ldap_set_option] leaves [reason] NULL, whereas the Novell block sets a
    reason after each failed native call. *)
Lemma ssl_init_openldap_failure_reason_null {S : Type} (tk : toolkit S)
      (k : constants) (b : build) (path : string) (opt : Z) (s : S) :
  sdk_selected OpenLDAPStyle b = true ->
  APR_HAS_LDAP_SSL b = true ->
  LDAP_OPT_X_TLS_CACERTFILE b = Some opt ->
  let t := ldap_set_option tk None opt (in_string path) s in
  fst t <> LDAP_SUCCESS k ->
  let o := apr_ldap_ssl_init tk k b (Some path) (APR_LDAP_CA_TYPE_BASE64 k) s in
  fst (value o) = APR_EGENERAL k
  /\ rc (snd (value o)) = fst t
  /\ reason (snd (value o)) = None.
Proof.
  intros Hb Hssl Hopt t Ht o.
  assert (Hne : (LDAP_SUCCESS k =? fst t) = false).
  { apply Zeqb_neq_false. congruence. }
  subst o. read_build Hb. cbn in Hssl, Hopt. subst.
  run. rewrite Z.eqb_refl. cbn. fold t. destruct t as [r1 s1]. cbn in Hne |- *.
  destruct (r1 =? -1); cbn; rewrite Hne; cbn; auto.
Qed.

(** ** Counterexamples to the claims that were amended *)

(** C2 as stated fails on Novell: with the file /ca.pem of type CERT7_DB,
    which Novell does not take, [apr_ldap_ssl_init] has called
    [ldapssl_client_init] before it rejects the type.  It also fails in a
    Netscape build in which the macro of line 72 is off: the file /ca.pem of
    type BASE64 is not looked at and the call returns [APR_SUCCESS] with
    [rc] zero and no reason. *)
Lemma ssl_init_novell_rejected_type_calls_toolkit :
  let k := Double.consts in
  let b := full_build NovellStyle true false in
  let ty := APR_LDAP_CA_TYPE_CERT7_DB k in
  let o := apr_ldap_ssl_init (Double.sdk Double.all_ok) k b (Some "/ca.pem") ty
             Double.fresh in
  let b' := full_build NetscapeStyle true false in
  let ty' := APR_LDAP_CA_TYPE_BASE64 k in
  let o' := apr_ldap_ssl_init (Double.sdk Double.all_ok) k b' (Some "/ca.pem") ty'
              Double.fresh in
  (sdk_selected NovellStyle b = true
   /\ ty <> APR_LDAP_CA_TYPE_DER k /\ ty <> APR_LDAP_CA_TYPE_BASE64 k
   /\ calls o = [call_ldapssl_client_init None]
   /\ ~ (rc (snd (value o)) = -1 /\ reason (snd (value o)) <> None /\ calls o = []))
  /\
  (sdk_selected NetscapeStyle b' = true
   /\ APR_HAS_NETSCAPE_LDAPSDK b' = true
   /\ ty' <> APR_LDAP_CA_TYPE_CERT7_DB k
   /\ value o' = (APR_SUCCESS k, {| reason := None; msg := Some "Success"; rc := 0 |})
   /\ ~ (rc (snd (value o')) = -1 /\ reason (snd (value o')) <> None /\ calls o' = [])).
Proof.
  cbn. repeat split; try discriminate.
  - intros (_ & _ & H). discriminate H.
  - intros (H & _). discriminate H.
Qed.

(** C8 as stated fails in a Microsoft build without SSL: the Microsoft block
    of lines 171-177 is not compiled, and with the file /ca.pem the branch of
    lines 200-205 gives [rc = -1], a reason and [APR_EGENERAL]. *)
Lemma ssl_init_microsoft_without_ssl_fails :
  let k := Double.consts in
  let b := full_build MicrosoftStyle false false in
  let o := apr_ldap_ssl_init (Double.sdk Double.all_ok) k b (Some "/ca.pem")
             (APR_LDAP_CA_TYPE_BASE64 k) Double.fresh in
  sdk_selected MicrosoftStyle b = true
  /\ APR_HAS_MICROSOFT_LDAPSDK b = true
  /\ APR_HAS_LDAP_SSL b = false
  /\ value o =
       (APR_EGENERAL k,
        {| reason := Some "LDAP: Attempt to set certificate store failed. Not built with SSL support";
           msg := None; rc := -1 |})
  /\ fst (value o) <> APR_SUCCESS k
  /\ rc (snd (value o)) <> LDAP_SUCCESS k.
Proof.
  cbn. repeat split; discriminate.
Qed.

(** C7 as stated fails where the SDK has no [ldapssl_client_deinit]: on
    OpenLDAP, after [apr_ldap_ssl_init] has set the file /ca.pem, the store
    holds a certificate, and [apr_ldap_ssl_deinit] returns [APR_SUCCESS]
    without a native call and leaves the store as it is. *)
Lemma ssl_deinit_openldap_keeps_store :
  let k := Double.consts in
  let tk := Double.sdk Double.all_ok in
  let b := full_build OpenLDAPStyle true false in
  let configured := apr_ldap_ssl_init tk k b (Some "/ca.pem")
                      (APR_LDAP_CA_TYPE_BASE64 k) Double.fresh in
  let o := apr_ldap_ssl_deinit tk k b (state configured) in
  fst (value configured) = APR_SUCCESS k
  /\ Double.store (state configured) = CertsLoaded 1
  /\ value o = APR_SUCCESS k
  /\ calls o = []
  /\ Double.store (state o) = CertsLoaded 1
  /\ Double.store (state o) <> Uninitialized.
Proof.
  cbn. repeat split. discriminate.
Qed.

(** C6 as stated fails on OpenLDAP when the hard-TLS option fails: the
    handle is NULL on return, and the function returns [APR_EGENERAL], which
    is neither the error of the operating system (0 here) nor
    [APR_SUCCESS]. *)
Lemma init_tls_failure_is_not_os_error :
  let k := Double.consts in
  let tk := Double.sdk Double.set_option_fails in
  let o := apr_ldap_init tk k (full_build OpenLDAPStyle true false)
             None "ldap.example.org" 636 1 Double.fresh in
  ldap_out (value o) = None
  /\ status (value o) = APR_EGENERAL k
  /\ apr_get_os_error tk (state o) = 0
  /\ ~ ((ldap_out (value o) = None -> status (value o) = apr_get_os_error tk (state o))
        /\ (ldap_out (value o) <> None -> status (value o) = APR_SUCCESS k)).
Proof.
  cbn. repeat split.
  intros (H & _). specialize (H eq_refl). discriminate H.
Qed.

(** ** The theorems at concrete inputs *)

Lemma ssl_init_success_or_general_witness :
  let k := Double.consts in
  let o := apr_ldap_ssl_init (Double.sdk Double.all_ok) k
             (full_build SolarisStyle true false) (Some "/ca.pem") 2 Double.fresh in
  APR_ENOTIMPL k <> APR_SUCCESS k
  /\ APR_ENOTIMPL k <> APR_EGENERAL k
  /\ LDAP_SUCCESS k <> -1
  /\ fst (value o) = APR_EGENERAL k
  /\ fst (value o) <> APR_ENOTIMPL k
  /\ rc (snd (value o)) = -1.
Proof.
  intros k o.
  assert (H1 : APR_ENOTIMPL k <> APR_SUCCESS k) by (cbn; lia).
  assert (H2 : APR_ENOTIMPL k <> APR_EGENERAL k) by (cbn; lia).
  assert (H3 : LDAP_SUCCESS k <> -1) by (cbn; lia).
  destruct (ssl_init_success_or_general (Double.sdk Double.all_ok) k
              (full_build SolarisStyle true false) (Some "/ca.pem") 2 Double.fresh
              H1 H2 H3) as (_ & _ & Hne & Hgap).
  assert (Hf : Some "/ca.pem" <> None) by discriminate.
  destruct (Hgap Hf (or_intror (or_introl eq_refl))) as [Hrc Hst].
  exact (conj H1 (conj H2 (conj H3 (conj Hst (conj Hne Hrc))))).
Defined.

Lemma ssl_init_null_file_succeeds_witness :
  let k := Double.consts in
  let b := full_build Unrecognized false false in
  let o := apr_ldap_ssl_init (Double.sdk Double.all_ok) k b None 3 Double.fresh in
  sdk_selected Unrecognized b = true
  /\ (Unrecognized <> NovellStyle \/ APR_HAS_LDAP_SSL b = false)
  /\ LDAP_SUCCESS k = 0
  /\ fst (value o) = APR_SUCCESS k
  /\ rc (snd (value o)) = LDAP_SUCCESS k
  /\ reason (snd (value o)) = None
  /\ state o = Double.fresh.
Proof.
  intros k b o.
  assert (H1 : sdk_selected Unrecognized b = true) by reflexivity.
  assert (H2 : Unrecognized <> NovellStyle \/ APR_HAS_LDAP_SSL b = false)
    by (right; reflexivity).
  assert (H3 : LDAP_SUCCESS k = 0) by reflexivity.
  refine (conj H1 (conj H2 (conj H3 _))).
  exact (ssl_init_null_file_succeeds (Double.sdk Double.all_ok) k Unrecognized b 3
           Double.fresh H1 H2 H3).
Defined.

Lemma ssl_init_microsoft_always_succeeds_witness :
  let k := Double.consts in
  let b := full_build MicrosoftStyle true false in
  let o := apr_ldap_ssl_init (Double.sdk Double.all_ok) k b (Some "/ca.pem") 3
             Double.fresh in
  sdk_selected MicrosoftStyle b = true
  /\ APR_HAS_LDAP_SSL b = true
  /\ fst (value o) = APR_SUCCESS k
  /\ rc (snd (value o)) = LDAP_SUCCESS k
  /\ reason (snd (value o)) = None
  /\ o = apr_ldap_ssl_init (Double.sdk Double.all_ok) k b None 0 Double.fresh.
Proof.
  intros k b o.
  assert (H1 : sdk_selected MicrosoftStyle b = true) by reflexivity.
  assert (H2 : APR_HAS_LDAP_SSL b = true) by reflexivity.
  refine (conj H1 (conj H2 _)).
  exact (ssl_init_microsoft_always_succeeds (Double.sdk Double.all_ok) k b
           (Some "/ca.pem") 3 Double.fresh H1 H2).
Defined.

Lemma ssl_init_novell_add_failure_deinit_witness :
  let k := Double.consts in
  let tk := Double.sdk Double.add_fails in
  let b := full_build NovellStyle true false in
  let o := apr_ldap_ssl_init tk k b (Some "/ca.pem") 2 Double.two_certs in
  sdk_selected NovellStyle b = true
  /\ fst (ldapssl_client_init tk None Double.two_certs) = LDAP_SUCCESS k
  /\ calls o =
       [ call_ldapssl_client_init None;
         call_ldapssl_add_trusted_cert "/ca.pem" 1;
         call_ldapssl_client_deinit;
         call_ldap_err2string 1 ]
  /\ Double.store (state o) = Uninitialized
  /\ fst (value o) = APR_EGENERAL k
  /\ rc (snd (value o)) = 1.
Proof.
  intros k tk b o.
  assert (Hlaw : forall s0, Double.store (ldapssl_client_deinit tk s0) = Uninitialized)
    by (intros s0; reflexivity).
  assert (Hb : sdk_selected NovellStyle b = true) by reflexivity.
  assert (Hty : 2 = APR_LDAP_CA_TYPE_DER k \/ 2 = APR_LDAP_CA_TYPE_BASE64 k)
    by (right; reflexivity).
  assert (Hi : fst (ldapssl_client_init tk None Double.two_certs) = LDAP_SUCCESS k)
    by reflexivity.
  assert (Ha : fst (ldapssl_add_trusted_cert tk "/ca.pem" (novell_filetype k 2)
                      (snd (ldapssl_client_init tk None Double.two_certs)))
               <> LDAP_SUCCESS k) by (cbn; lia).
  destruct (ssl_init_novell_add_failure_deinit tk k b "/ca.pem" 2 Double.two_certs
              Double.store Hlaw Hb eq_refl eq_refl eq_refl eq_refl Hty Hi Ha)
    as (Hc & _ & Hs & Hst & Hrc & _).
  exact (conj Hb (conj Hi (conj Hc (conj Hs (conj Hst Hrc))))).
Defined.

Lemma init_openldap_tls_failure_unbinds_witness :
  let k := Double.consts in
  let tk := Double.sdk Double.set_option_fails in
  let b := full_build OpenLDAPStyle true false in
  let o := apr_ldap_init tk k b None "ldap.example.org" 636 1 Double.fresh in
  sdk_selected OpenLDAPStyle b = true
  /\ fst (ldap_init tk "ldap.example.org" 636 Double.fresh) = Some 7%nat
  /\ calls o =
       [ call_ldap_init "ldap.example.org" 636;
         call_ldap_set_option (Some 7%nat) 24576 (in_int 1);
         call_ldap_unbind_s 7%nat;
         call_ldap_err2string 1 ]
  /\ Double.open_handles (state o) = []
  /\ ldap_out (value o) = None
  /\ status (value o) = APR_EGENERAL k.
Proof.
  intros k tk b o.
  assert (Hb : sdk_selected OpenLDAPStyle b = true) by reflexivity.
  assert (Hsec : 1 <> 0) by lia.
  assert (Hi : fst (ldap_init tk "ldap.example.org" 636 Double.fresh) = Some 7%nat)
    by reflexivity.
  assert (Ht : fst (ldap_set_option tk (Some 7%nat) 24576
                      (in_int (LDAP_OPT_X_TLS_HARD k))
                      (snd (ldap_init tk "ldap.example.org" 636 Double.fresh)))
               <> LDAP_SUCCESS k) by (cbn; lia).
  destruct (init_openldap_tls_failure_unbinds tk k b None "ldap.example.org" 636 1
              24576 7%nat Double.fresh Hb eq_refl eq_refl Hsec Hi Ht)
    as (Hc & Hs & Hl & Hst & _).
  refine (conj Hb (conj Hi (conj Hc (conj _ (conj Hl Hst))))).
  reflexivity.
Defined.

Lemma ssl_init_rejected_type_witness :
  let k := Double.consts in
  let tk := Double.sdk Double.all_ok in
  let file := Some "/ca.pem" in
  let openldap := apr_ldap_ssl_init tk k (full_build OpenLDAPStyle true false)
                    file (APR_LDAP_CA_TYPE_CERT7_DB k) Double.fresh in
  let netscape := apr_ldap_ssl_init tk k (full_build NetscapeStyle true true)
                    file (APR_LDAP_CA_TYPE_BASE64 k) Double.fresh in
  let novell := apr_ldap_ssl_init tk k (full_build NovellStyle true false)
                    file (APR_LDAP_CA_TYPE_CERT7_DB k) Double.fresh in
  sdk_selected OpenLDAPStyle (full_build OpenLDAPStyle true false) = true
  /\ sdk_selected NetscapeStyle (full_build NetscapeStyle true true) = true
  /\ sdk_selected NovellStyle (full_build NovellStyle true false) = true
  /\ (rc (snd (value openldap)) = -1
      /\ reason (snd (value openldap)) =
           Some "LDAP: Invalid certificate type: BASE64 type required"
      /\ calls openldap = [] /\ state openldap = Double.fresh)
  /\ (rc (snd (value netscape)) = -1
      /\ reason (snd (value netscape)) =
           Some "LDAP: Invalid certificate type: CERT7_DB type required"
      /\ calls netscape = [] /\ state netscape = Double.fresh)
  /\ (rc (snd (value novell)) = -1
      /\ reason (snd (value novell)) =
           Some "LDAP: Invalid certificate type: DER or BASE64 type required"
      /\ calls novell = [call_ldapssl_client_init None]
      /\ Double.store (state novell) = ClientInitialized).
Proof.
  intros k tk file openldap netscape novell.
  assert (Ho : sdk_selected OpenLDAPStyle (full_build OpenLDAPStyle true false) = true)
    by reflexivity.
  assert (Hn : sdk_selected NetscapeStyle (full_build NetscapeStyle true true) = true)
    by reflexivity.
  assert (Hv : sdk_selected NovellStyle (full_build NovellStyle true false) = true)
    by reflexivity.
  assert (H32 : 3 <> 2) by lia.
  assert (H23 : 2 <> 3) by lia.
  assert (H31 : 3 <> 1) by lia.
  assert (Hopt : LDAP_OPT_X_TLS_CACERTFILE (full_build OpenLDAPStyle true false) <> None)
    by discriminate.
  destruct (ssl_init_rejected_type tk k (full_build OpenLDAPStyle true false)
              "/ca.pem" 3 Double.fresh) as (Po & _ & _).
  destruct (ssl_init_rejected_type tk k (full_build NetscapeStyle true true)
              "/ca.pem" 2 Double.fresh) as (_ & Pn & _).
  destruct (ssl_init_rejected_type tk k (full_build NovellStyle true false)
              "/ca.pem" 3 Double.fresh) as (_ & _ & Pv).
  destruct (Po Ho H32) as (O1 & _ & O3 & O4 & O5).
  destruct (Pn Hn (or_intror eq_refl) H23) as (N1 & _ & N3 & N4 & N5).
  destruct (Pv Hv H31 H32) as (_ & Py).
  destruct (Py eq_refl) as (_ & _ & _ & Pok & _).
  destruct (Pok eq_refl) as (V1 & V2 & V3).
  refine (conj Ho (conj Hn (conj Hv
           (conj (conj O1 (conj (O5 eq_refl Hopt) (conj O3 O4)))
           (conj (conj N1 (conj (N5 eq_refl eq_refl) (conj N3 N4)))
                 (conj V1 (conj V2 (conj V3 _)))))))).
  reflexivity.
Defined.

Lemma init_status_after_open_witness :
  let k := Double.consts in
  let tk := Double.sdk Double.unreachable in
  let b := full_build NovellStyle true false in
  let o := apr_ldap_init tk k b None "ldap.example.org" 636 1 Double.fresh in
  sdk_selected NovellStyle b = true
  /\ existsb is_open_call (calls o) = true
  /\ existsb is_unbind_call (calls o) = false
  /\ ldap_out (value o) = None
  /\ status (value o) = 111.
Proof.
  intros k tk b o.
  assert (Hb : sdk_selected NovellStyle b = true) by reflexivity.
  assert (Ho : existsb is_open_call (calls o) = true) by reflexivity.
  assert (Hu : existsb is_unbind_call (calls o) = false) by reflexivity.
  refine (conj Hb (conj Ho (conj Hu (conj eq_refl _)))).
  exact (init_status_after_open tk k NovellStyle b None "ldap.example.org" 636 1
           Double.fresh Hb Ho Hu).
Defined.

Lemma ssl_deinit_resets_and_is_idempotent_witness :
  let k := Double.consts in
  let tk := Double.sdk Double.all_ok in
  let b := full_build NovellStyle true false in
  let once := apr_ldap_ssl_deinit tk k b Double.two_certs in
  let twice := apr_ldap_ssl_deinit tk k b (state once) in
  (forall s0, Double.store (ldapssl_client_deinit tk s0) = Uninitialized)
  /\ value once = APR_SUCCESS k
  /\ value twice = APR_SUCCESS k
  /\ Double.store (state twice) = Double.store (state once)
  /\ calls once = [call_ldapssl_client_deinit]
  /\ Double.store (state once) = Uninitialized.
Proof.
  intros k tk b once twice.
  assert (Hlaw : forall s0, Double.store (ldapssl_client_deinit tk s0) = Uninitialized)
    by (intros s0; reflexivity).
  destruct (ssl_deinit_resets_and_is_idempotent tk k b Double.store Double.two_certs Hlaw)
    as (H1 & H2 & H3 & H4 & _).
  destruct (H4 eq_refl eq_refl) as (C1 & _ & C3).
  exact (conj Hlaw (conj H1 (conj H2 (conj H3 (conj C1 C3))))).
Defined.

(** * Further properties of the entry points *)

(** Decide what a native call of [apr_ldap_ssl_init] or [apr_ldap_init]
    returned by cases. *)
Ltac answered :=
  match goal with
  | |- context [ldapssl_client_init ?tk ?f ?s] =>
      destruct (ldapssl_client_init tk f s) as [? ?] eqn:?
  | |- context [ldapssl_add_trusted_cert ?tk ?f ?t ?s] =>
      destruct (ldapssl_add_trusted_cert tk f t s) as [? ?] eqn:?
  | |- context [ldap_set_option ?tk ?l ?o ?v ?s] =>
      destruct (ldap_set_option tk l o v s) as [? ?] eqn:?
  | |- context [ldap_init ?tk ?h ?p ?s] =>
      destruct (ldap_init tk h p s) as [[?|] ?] eqn:?
  | |- context [ldapssl_init ?tk ?h ?p ?f ?s] =>
      destruct (ldapssl_init tk h p f s) as [[?|] ?] eqn:?
  | |- context [ldap_sslinit ?tk ?h ?p ?f ?s] =>
      destruct (ldap_sslinit tk h p f s) as [[?|] ?] eqn:?
  end; cbn.

Ltac explore := repeat (first [step | answered]).

(** Turn the outcomes of the tests met on the way into equations. *)
Ltac tests :=
  repeat match goal with
         | H : negb _ = true |- _ => apply negb_true_iff in H
         | H : negb _ = false |- _ => apply negb_false_iff in H
         | H : (_ || _) = true |- _ => apply orb_true_iff in H
         | H : (_ || _) = false |- _ => apply orb_false_iff in H; destruct H
         | H : (_ =? _) = true |- _ => apply Z.eqb_eq in H
         | H : (_ =? _) = false |- _ => apply Z.eqb_neq in H
         end.

(** ** apr_ldap_ssl_init *)

(** X1: with a NULL [cert_auth_file] no certificate reaches the toolkit,
    whatever the build: none of the native calls is
    [ldapssl_add_trusted_cert], [ldap_set_option] of a file or
    [ldapssl_client_init] with a database; and the certificate type is not
    looked at: two calls that differ only in [cert_file_type] do the same
    native calls and give the same status, result and toolkit state. *)
Theorem ssl_init_null_file_loads_nothing {S : Type} (tk : toolkit S) (k : constants)
        (b : build) (ty ty' : Z) (s : S) :
  existsb loads_certificate (calls (apr_ldap_ssl_init tk k b None ty s)) = false
  /\ apr_ldap_ssl_init tk k b None ty s = apr_ldap_ssl_init tk k b None ty' s.
Proof.
  split; [|reflexivity].
  run. explore; reflexivity.
Qed.

(** X2: in every build, whenever the [rc] of the result is not -1, [msg] is
    the toolkit's decoding of that [rc]; and in a build of one variant a [msg]
    that is set is always the decoding of the [rc] it comes with. *)
Theorem ssl_init_msg_decodes_rc {S : Type} (tk : toolkit S) (k : constants)
        (v : ToolkitVariant) (b : build) (file : option string) (ty : Z) (s : S) :
  let r := snd (value (apr_ldap_ssl_init tk k b file ty s)) in
  (rc r <> -1 -> msg r = Some (ldap_err2string tk (rc r)))
  /\ (sdk_selected v b = true ->
      forall m, msg r = Some m -> m = ldap_err2string tk (rc r)).
Proof.
  intros r. split.
  - subst r. unfold apr_ldap_ssl_init, Eff.bind.
    destruct (ssl_init_blocks tk k b file ty s) as [[r0 s1] c1].
    cbv [ssl_init_finish Eff.bind Eff.pure_call Eff.ret value fst snd].
    destruct (rc r0 =? -1) eqn:E; cbn.
    + apply Z.eqb_eq in E. destruct (negb (LDAP_SUCCESS k =? rc r0)); cbn; congruence.
    + destruct (negb (LDAP_SUCCESS k =? rc r0)); cbn; reflexivity.
  - intros Hb. subst r.
    destruct v; read_build Hb; run; explore; intros m Hm;
      try discriminate; try (injection Hm as <-; reflexivity).
Qed.

Lemma ssl_init_msg_decodes_rc_witness :
  let tk := Double.sdk Double.add_fails in
  let b := full_build NovellStyle true false in
  let r := snd (value (apr_ldap_ssl_init tk Double.consts b (Some "/ca.pem") 2
                         Double.fresh)) in
  rc r <> -1
  /\ sdk_selected NovellStyle b = true
  /\ msg r = Some (ldap_err2string tk (rc r))
  /\ msg r = Some "Error".
Proof.
  intros tk b r.
  assert (H1 : rc r <> -1) by (cbn; lia).
  assert (H2 : sdk_selected NovellStyle b = true) by reflexivity.
  destruct (ssl_init_msg_decodes_rc tk Double.consts NovellStyle b (Some "/ca.pem") 2
              Double.fresh) as [Hd _].
  exact (conj H1 (conj H2 (conj (Hd H1) eq_refl))).
Defined.

(** X3: in a build of one variant a result whose [rc] is [LDAP_SUCCESS]
    (the call returned [APR_SUCCESS]) has no [reason]: a reason is only ever
    set together with a failure.  [LDAP_SUCCESS] is not the sentinel -1. *)
Theorem ssl_init_success_has_no_reason {S : Type} (tk : toolkit S) (k : constants)
        (v : ToolkitVariant) (b : build) (file : option string) (ty : Z) (s : S) :
  sdk_selected v b = true ->
  LDAP_SUCCESS k <> -1 ->
  let o := apr_ldap_ssl_init tk k b file ty s in
  rc (snd (value o)) = LDAP_SUCCESS k ->
  fst (value o) = APR_SUCCESS k /\ reason (snd (value o)) = None.
Proof.
  intros Hb Hl o. subst o.
  destruct v; read_build Hb; run; explore; intros Hrc; tests;
    try congruence; auto.
Qed.

Lemma ssl_init_success_has_no_reason_witness :
  let tk := Double.sdk Double.all_ok in
  let k := Double.consts in
  let b := full_build NovellStyle true false in
  let o := apr_ldap_ssl_init tk k b (Some "/ca.pem") 1 Double.fresh in
  sdk_selected NovellStyle b = true
  /\ LDAP_SUCCESS k <> -1
  /\ rc (snd (value o)) = LDAP_SUCCESS k
  /\ fst (value o) = APR_SUCCESS k
  /\ reason (snd (value o)) = None.
Proof.
  intros tk k b o.
  assert (H1 : sdk_selected NovellStyle b = true) by reflexivity.
  assert (H2 : LDAP_SUCCESS k <> -1) by (cbn; lia).
  assert (H3 : rc (snd (value o)) = LDAP_SUCCESS k) by reflexivity.
  exact (conj H1 (conj H2 (conj H3
           (ssl_init_success_has_no_reason tk k NovellStyle b (Some "/ca.pem") 1
              Double.fresh H1 H2 H3)))).
Defined.

(** X4: a certificate file given to a toolkit that cannot take one (a build
    without SSL, the Sun toolkit, an unrecognised toolkit) is refused
    without any native call, not even the decoding of [rc]: the toolkit
    state is untouched, [rc] is -1, [msg] is NULL and [reason] is set. *)
Theorem ssl_init_unsupported_makes_no_call {S : Type} (tk : toolkit S)
        (k : constants) (b : build) (path : string) (ty : Z) (s : S) :
  APR_HAS_LDAP_SSL b = false \/ sdk_selected SolarisStyle b = true
    \/ sdk_selected Unrecognized b = true ->
  let o := apr_ldap_ssl_init tk k b (Some path) ty s in
  calls o = [] /\ state o = s
  /\ rc (snd (value o)) = -1
  /\ msg (snd (value o)) = None
  /\ reason (snd (value o)) <> None.
Proof.
  intros Hb o. subst o. destruct Hb as [Hb|[Hb|Hb]].
  - destruct b; cbn in Hb; subst. run. explore; repeat split; discriminate.
  - read_build Hb. run. explore; repeat split; discriminate.
  - read_build Hb. run. explore; repeat split; discriminate.
Qed.

Lemma ssl_init_unsupported_makes_no_call_witness :
  let b := full_build OpenLDAPStyle false false in
  let o := apr_ldap_ssl_init (Double.sdk Double.all_ok) Double.consts b
             (Some "/ca.pem") 2 Double.fresh in
  APR_HAS_LDAP_SSL b = false
  /\ calls o = [] /\ state o = Double.fresh
  /\ rc (snd (value o)) = -1
  /\ msg (snd (value o)) = None
  /\ reason (snd (value o)) <> None.
Proof.
  intros b o.
  assert (H : APR_HAS_LDAP_SSL b = false) by reflexivity.
  exact (conj H (ssl_init_unsupported_makes_no_call (Double.sdk Double.all_ok)
                   Double.consts b "/ca.pem" 2 Double.fresh (or_introl H))).
Defined.

(** X5: with SSL compiled in, an SDK that lacks the function the file needs
    is reported with [rc = -1] and a reason, without any native call.  On
    Novell (one of [ldapssl_client_init], [ldapssl_add_trusted_cert],
    [ldapssl_client_deinit] missing) this is so for every call, also the one
    with a NULL file; on OpenLDAP without [LDAP_OPT_X_TLS_CACERTFILE] and in
    the Netscape block without [ldapssl_client_init] it is so for every call
    with a file, whatever the certificate type. *)
Theorem ssl_init_missing_sdk_function {S : Type} (tk : toolkit S) (k : constants)
        (b : build) (ty : Z) (s : S) :
  APR_HAS_LDAP_SSL b = true ->
  (sdk_selected NovellStyle b = true ->
   APR_HAS_LDAPSSL_CLIENT_INIT b && APR_HAS_LDAPSSL_ADD_TRUSTED_CERT b
     && APR_HAS_LDAPSSL_CLIENT_DEINIT b = false ->
   forall file,
     let o := apr_ldap_ssl_init tk k b file ty s in
     calls o = [] /\ state o = s /\ rc (snd (value o)) = -1
     /\ reason (snd (value o)) =
          Some "LDAP: ldapssl_client_init(), ldapssl_add_trusted_cert() or ldapssl_client_deinit() functions not supported by this Novell SDK. Certificate authority file not set")
  /\
  (sdk_selected OpenLDAPStyle b = true ->
   LDAP_OPT_X_TLS_CACERTFILE b = None ->
   forall path,
     let o := apr_ldap_ssl_init tk k b (Some path) ty s in
     calls o = [] /\ state o = s /\ rc (snd (value o)) = -1
     /\ reason (snd (value o)) =
          Some "LDAP: LDAP_OPT_X_TLS_CACERTFILE not defined by this OpenLDAP SDK. Certificate authority file not set")
  /\
  (sdk_selected NetscapeStyle b = true ->
   APR_HAS_NETSCAPE_LDAPSK b = true ->
   APR_HAS_LDAP_SSL_CLIENT_INIT b = false ->
   forall path,
     let o := apr_ldap_ssl_init tk k b (Some path) ty s in
     calls o = [] /\ state o = s /\ rc (snd (value o)) = -1
     /\ reason (snd (value o)) =
          Some "LDAP: ldapssl_client_init() function not supported by this Netscape SDK. Certificate authority file not set").
Proof.
  intros Hssl. split; [|split].
  - intros Hb Hf file o. subst o. read_build Hb. cbn in Hssl, Hf. subst.
    run. rewrite Hf. cbn. explore; auto.
  - intros Hb Hf path o. subst o. read_build Hb. cbn in Hssl, Hf. subst.
    run. explore; auto.
  - intros Hb Hk Hf path o. subst o. read_build Hb. cbn in Hssl, Hk, Hf. subst.
    run. explore; auto.
Qed.

Lemma ssl_init_missing_sdk_function_witness :
  let tk := Double.sdk Double.all_ok in
  let k := Double.consts in
  let novell :=
    mk_build true false false false true false false false false
             true false true true true None None in
  let o := apr_ldap_ssl_init tk k novell None 0 Double.fresh in
  APR_HAS_LDAP_SSL novell = true
  /\ sdk_selected NovellStyle novell = true
  /\ calls o = [] /\ state o = Double.fresh /\ rc (snd (value o)) = -1
  /\ fst (value o) = APR_EGENERAL k.
Proof.
  intros tk k novell o.
  assert (H1 : APR_HAS_LDAP_SSL novell = true) by reflexivity.
  assert (H2 : sdk_selected NovellStyle novell = true) by reflexivity.
  destruct (ssl_init_missing_sdk_function tk k novell 0 Double.fresh H1) as (Hn & _ & _).
  destruct (Hn H2 eq_refl None) as (C1 & C2 & C3 & _).
  exact (conj H1 (conj H2 (conj C1 (conj C2 (conj C3 eq_refl))))).
Defined.

(** The Novell build that has the three SDK functions. *)
Ltac novell_build Hb Hssl H1 H2 H3 :=
  read_build Hb; cbn in Hssl, H1, H2, H3; subst.

(** X6: on Novell a failed [ldapssl_client_init] ends the call: whatever
    file and certificate type were given, no certificate is added and
    nothing is torn down; the result carries the code of the failed
    initialisation, its decoding and the reason "Could not initialize SSL",
    and the status is [APR_EGENERAL]. *)
Theorem ssl_init_novell_init_failure {S : Type} (tk : toolkit S) (k : constants)
        (b : build) (file : option string) (ty : Z) (s : S) :
  sdk_selected NovellStyle b = true ->
  APR_HAS_LDAP_SSL b = true ->
  APR_HAS_LDAPSSL_CLIENT_INIT b = true ->
  APR_HAS_LDAPSSL_ADD_TRUSTED_CERT b = true ->
  APR_HAS_LDAPSSL_CLIENT_DEINIT b = true ->
  let i := ldapssl_client_init tk None s in
  fst i <> LDAP_SUCCESS k ->
  let o := apr_ldap_ssl_init tk k b file ty s in
  calls o =
    [ call_ldapssl_client_init None; call_ldap_err2string (fst i) ]
    ++ (if fst i =? -1 then [] else [call_ldap_err2string (fst i)])
  /\ state o = snd i
  /\ fst (value o) = APR_EGENERAL k
  /\ snd (value o) =
       {| reason := Some "LDAP: Could not initialize SSL";
          msg := Some (ldap_err2string tk (fst i));
          rc := fst i |}.
Proof.
  intros Hb Hssl H1 H2 H3 i Hi o.
  assert (Hne : (LDAP_SUCCESS k =? fst i) = false).
  { apply Zeqb_neq_false. congruence. }
  subst o. novell_build Hb Hssl H1 H2 H3.
  run. fold i. destruct i as [r1 s1]. cbn in Hne |- *. rewrite Hne. cbn.
  destruct (r1 =? -1); cbn; rewrite Hne; cbn; auto.
Qed.

Lemma ssl_init_novell_init_failure_witness :
  let tk := Double.sdk (Double.mk_script 81 0 0 None 0) in
  let k := Double.consts in
  let b := full_build NovellStyle true false in
  let o := apr_ldap_ssl_init tk k b (Some "/ca.pem") 2 Double.fresh in
  sdk_selected NovellStyle b = true
  /\ fst (ldapssl_client_init tk None Double.fresh) <> LDAP_SUCCESS k
  /\ calls o =
       [ call_ldapssl_client_init None; call_ldap_err2string 81;
         call_ldap_err2string 81 ]
  /\ state o = Double.fresh
  /\ fst (value o) = APR_EGENERAL k.
Proof.
  intros tk k b o.
  assert (Hb : sdk_selected NovellStyle b = true) by reflexivity.
  assert (Hi : fst (ldapssl_client_init tk None Double.fresh) <> LDAP_SUCCESS k)
    by (cbn; lia).
  destruct (ssl_init_novell_init_failure tk k b (Some "/ca.pem") 2 Double.fresh
              Hb eq_refl eq_refl eq_refl eq_refl Hi) as (C1 & C2 & C3 & _).
  exact (conj Hb (conj Hi (conj C1 (conj C2 C3)))).
Defined.

(** X7: on Novell, after a successful [ldapssl_client_init], a file of type
    DER or BASE64 that [ldapssl_add_trusted_cert] accepts is added with
    exactly these two native calls (and the decoding of the code): the file
    type handed over is [LDAPSSL_CERT_FILETYPE_B64] for BASE64 and
    [LDAPSSL_CERT_FILETYPE_DER] otherwise, [ldapssl_client_deinit] is not
    called, the status is [APR_SUCCESS] and no reason is set. *)
Theorem ssl_init_novell_add_success {S : Type} (tk : toolkit S) (k : constants)
        (b : build) (path : string) (ty : Z) (s : S) :
  sdk_selected NovellStyle b = true ->
  APR_HAS_LDAP_SSL b = true ->
  APR_HAS_LDAPSSL_CLIENT_INIT b = true ->
  APR_HAS_LDAPSSL_ADD_TRUSTED_CERT b = true ->
  APR_HAS_LDAPSSL_CLIENT_DEINIT b = true ->
  ty = APR_LDAP_CA_TYPE_DER k \/ ty = APR_LDAP_CA_TYPE_BASE64 k ->
  let filetype :=
    if ty =? APR_LDAP_CA_TYPE_BASE64 k
    then LDAPSSL_CERT_FILETYPE_B64 k else LDAPSSL_CERT_FILETYPE_DER k in
  let i := ldapssl_client_init tk None s in
  let a := ldapssl_add_trusted_cert tk path filetype (snd i) in
  fst i = LDAP_SUCCESS k ->
  fst a = LDAP_SUCCESS k ->
  let o := apr_ldap_ssl_init tk k b (Some path) ty s in
  calls o =
    [ call_ldapssl_client_init None; call_ldapssl_add_trusted_cert path filetype ]
    ++ (if LDAP_SUCCESS k =? -1 then [] else [call_ldap_err2string (LDAP_SUCCESS k)])
  /\ state o = snd a
  /\ fst (value o) = APR_SUCCESS k
  /\ rc (snd (value o)) = LDAP_SUCCESS k
  /\ reason (snd (value o)) = None.
Proof.
  intros Hb Hssl H1 H2 H3 Hty filetype i a Hi Ha o.
  assert (Hacc : (ty =? APR_LDAP_CA_TYPE_DER k) || (ty =? APR_LDAP_CA_TYPE_BASE64 k) = true).
  { apply orb_true_iff. destruct Hty; subst ty; rewrite Z.eqb_refl; auto. }
  subst o. novell_build Hb Hssl H1 H2 H3.
  run. fold i. destruct i as [r1 s1] eqn:Ei. cbn in Hi, a |- *. subst r1.
  rewrite Z.eqb_refl. cbn. rewrite Hacc. cbn.
  unfold novell_filetype. fold filetype. fold a.
  destruct a as [r2 s2] eqn:Ea. cbn in Ha |- *. subst r2.
  rewrite Z.eqb_refl. cbn.
  rewrite (Z.eqb_sym (LDAP_SUCCESS k) (-1)).
  destruct (-1 =? LDAP_SUCCESS k); cbn; rewrite Z.eqb_refl; cbn; auto.
Qed.

Lemma ssl_init_novell_add_success_witness :
  let tk := Double.sdk Double.all_ok in
  let k := Double.consts in
  let b := full_build NovellStyle true false in
  let o := apr_ldap_ssl_init tk k b (Some "/ca.der") 1 Double.fresh in
  sdk_selected NovellStyle b = true
  /\ calls o =
       [ call_ldapssl_client_init None;
         call_ldapssl_add_trusted_cert "/ca.der" (LDAPSSL_CERT_FILETYPE_DER k);
         call_ldap_err2string 0 ]
  /\ Double.store (state o) = CertsLoaded 1
  /\ fst (value o) = APR_SUCCESS k
  /\ reason (snd (value o)) = None.
Proof.
  intros tk k b o.
  assert (Hb : sdk_selected NovellStyle b = true) by reflexivity.
  assert (Hty : 1 = APR_LDAP_CA_TYPE_DER k \/ 1 = APR_LDAP_CA_TYPE_BASE64 k)
    by (left; reflexivity).
  destruct (ssl_init_novell_add_success tk k b "/ca.der" 1 Double.fresh
              Hb eq_refl eq_refl eq_refl eq_refl Hty eq_refl eq_refl)
    as (C1 & C2 & C3 & _ & C5).
  refine (conj Hb (conj C1 (conj _ (conj C3 C5)))).
  reflexivity.
Defined.

(** X8: on Novell with SSL and the three SDK functions, the call with a
    NULL file is the initialisation alone, whatever that initialisation
    returns: the native calls are [ldapssl_client_init(NULL, NULL)] followed
    by decodings of its code only, [rc] is its return code and the toolkit is
    in the state it left.  When it succeeds the status is [APR_SUCCESS], no
    reason is set and the code is decoded once unless it is -1. *)
Theorem ssl_init_novell_null_file {S : Type} (tk : toolkit S) (k : constants)
        (b : build) (ty : Z) (s : S) :
  sdk_selected NovellStyle b = true ->
  APR_HAS_LDAP_SSL b = true ->
  APR_HAS_LDAPSSL_CLIENT_INIT b = true ->
  APR_HAS_LDAPSSL_ADD_TRUSTED_CERT b = true ->
  APR_HAS_LDAPSSL_CLIENT_DEINIT b = true ->
  let i := ldapssl_client_init tk None s in
  let o := apr_ldap_ssl_init tk k b None ty s in
  (exists n, calls o =
     call_ldapssl_client_init None :: repeat (call_ldap_err2string (fst i)) n)
  /\ state o = snd i
  /\ rc (snd (value o)) = fst i
  /\ (fst i = LDAP_SUCCESS k ->
      calls o =
        call_ldapssl_client_init None
        :: (if LDAP_SUCCESS k =? -1 then []
            else [call_ldap_err2string (LDAP_SUCCESS k)])
      /\ fst (value o) = APR_SUCCESS k
      /\ reason (snd (value o)) = None).
Proof.
  intros Hb Hssl H1 H2 H3 i o.
  subst o. novell_build Hb Hssl H1 H2 H3.
  run. fold i. destruct i as [r1 s1]. cbn.
  destruct (LDAP_SUCCESS k =? r1) eqn:E; cbn.
  - apply Z.eqb_eq in E. subst r1.
    destruct (LDAP_SUCCESS k =? -1); cbn; rewrite Z.eqb_refl; cbn;
      (split; [first [exists 0%nat; reflexivity | exists 1%nat; reflexivity]|]);
      auto.
  - apply Z.eqb_neq in E.
    destruct (r1 =? -1); cbn; rewrite (Zeqb_neq_false _ _ E); cbn;
      (split; [first [exists 1%nat; reflexivity | exists 2%nat; reflexivity]|]);
      repeat split; auto; intros; congruence.
Qed.

Lemma ssl_init_novell_null_file_witness :
  let tk := Double.sdk Double.all_ok in
  let k := Double.consts in
  let b := full_build NovellStyle true false in
  let o := apr_ldap_ssl_init tk k b None 0 Double.fresh in
  sdk_selected NovellStyle b = true
  /\ fst (ldapssl_client_init tk None Double.fresh) = LDAP_SUCCESS k
  /\ calls o = [call_ldapssl_client_init None; call_ldap_err2string 0]
  /\ Double.store (state o) = ClientInitialized
  /\ fst (value o) = APR_SUCCESS k.
Proof.
  intros tk k b o.
  assert (Hb : sdk_selected NovellStyle b = true) by reflexivity.
  assert (Hi : fst (ldapssl_client_init tk None Double.fresh) = LDAP_SUCCESS k)
    by reflexivity.
  destruct (ssl_init_novell_null_file tk k b 0 Double.fresh
              Hb eq_refl eq_refl eq_refl eq_refl) as (_ & _ & _ & Hok).
  destruct (Hok Hi) as (C1 & C3 & _).
  refine (conj Hb (conj Hi (conj C1 (conj _ C3)))).
  reflexivity.
Defined.

(** X9: on OpenLDAP (with SSL and [LDAP_OPT_X_TLS_CACERTFILE]) a BASE64
    file is handed to the toolkit by exactly one
    [ldap_set_option(NULL, LDAP_OPT_X_TLS_CACERTFILE, file)]; its return
    code is the [rc] of the result, decides the status and is decoded into
    [msg] unless it is -1; no reason is set, and the toolkit is left in the
    state that call produced. *)
Theorem ssl_init_openldap_forwards_file {S : Type} (tk : toolkit S) (k : constants)
        (b : build) (path : string) (opt : Z) (s : S) :
  sdk_selected OpenLDAPStyle b = true ->
  APR_HAS_LDAP_SSL b = true ->
  LDAP_OPT_X_TLS_CACERTFILE b = Some opt ->
  let t := ldap_set_option tk None opt (in_string path) s in
  let o := apr_ldap_ssl_init tk k b (Some path) (APR_LDAP_CA_TYPE_BASE64 k) s in
  calls o =
    call_ldap_set_option None opt (in_string path)
    :: (if fst t =? -1 then [] else [call_ldap_err2string (fst t)])
  /\ state o = snd t
  /\ rc (snd (value o)) = fst t
  /\ fst (value o) =
       (if fst t =? LDAP_SUCCESS k then APR_SUCCESS k else APR_EGENERAL k)
  /\ msg (snd (value o)) =
       (if fst t =? -1 then None else Some (ldap_err2string tk (fst t)))
  /\ reason (snd (value o)) = None.
Proof.
  intros Hb Hssl Hopt t o. subst o. read_build Hb. cbn in Hssl, Hopt. subst.
  run. rewrite Z.eqb_refl. cbn. fold t. destruct t as [r1 s1]. cbn.
  destruct (r1 =? -1); cbn; rewrite (Z.eqb_sym (LDAP_SUCCESS k) r1);
    destruct (r1 =? LDAP_SUCCESS k); cbn; repeat split; reflexivity.
Qed.

Lemma ssl_init_openldap_forwards_file_witness :
  let tk := Double.sdk Double.all_ok in
  let k := Double.consts in
  let b := full_build OpenLDAPStyle true false in
  let o := apr_ldap_ssl_init tk k b (Some "/ca.pem") (APR_LDAP_CA_TYPE_BASE64 k)
             Double.fresh in
  sdk_selected OpenLDAPStyle b = true
  /\ calls o = [ call_ldap_set_option None 24578 (in_string "/ca.pem");
                 call_ldap_err2string 0 ]
  /\ Double.store (state o) = CertsLoaded 1
  /\ fst (value o) = APR_SUCCESS k.
Proof.
  intros tk k b o.
  assert (Hb : sdk_selected OpenLDAPStyle b = true) by reflexivity.
  destruct (ssl_init_openldap_forwards_file tk k b "/ca.pem" 24578 Double.fresh
              Hb eq_refl eq_refl) as (C1 & _ & _ & C4 & _).
  refine (conj Hb (conj C1 (conj _ C4))).
  reflexivity.
Defined.

(** X10: in a build that compiles the Netscape block (the macros of lines
    72 and 74 are on, SSL is compiled in) a CERT7_DB file is handed to the
    toolkit by exactly one [ldapssl_client_init(file, NULL)]; its return
    code is the [rc] of the result and decides the status, and no reason is
    set whatever it returns. *)
Theorem ssl_init_netscape_forwards_database {S : Type} (tk : toolkit S)
        (k : constants) (b : build) (path : string) (s : S) :
  sdk_selected NetscapeStyle b = true ->
  APR_HAS_LDAP_SSL b = true ->
  APR_HAS_NETSCAPE_LDAPSK b = true ->
  APR_HAS_LDAP_SSL_CLIENT_INIT b = true ->
  let i := ldapssl_client_init tk (Some path) s in
  let o := apr_ldap_ssl_init tk k b (Some path) (APR_LDAP_CA_TYPE_CERT7_DB k) s in
  calls o =
    call_ldapssl_client_init (Some path)
    :: (if fst i =? -1 then [] else [call_ldap_err2string (fst i)])
  /\ state o = snd i
  /\ rc (snd (value o)) = fst i
  /\ reason (snd (value o)) = None
  /\ fst (value o) =
       (if fst i =? LDAP_SUCCESS k then APR_SUCCESS k else APR_EGENERAL k).
Proof.
  intros Hb Hssl Hk Hc i o. subst o. read_build Hb. cbn in Hssl, Hk, Hc. subst.
  run. rewrite Z.eqb_refl. cbn. fold i. destruct i as [r1 s1]. cbn.
  destruct (r1 =? -1); cbn; rewrite (Z.eqb_sym (LDAP_SUCCESS k) r1);
    destruct (r1 =? LDAP_SUCCESS k); cbn; auto.
Qed.

Lemma ssl_init_netscape_forwards_database_witness :
  let tk := Double.sdk Double.all_ok in
  let k := Double.consts in
  let b := full_build NetscapeStyle true true in
  let o := apr_ldap_ssl_init tk k b (Some "/cert7.db") (APR_LDAP_CA_TYPE_CERT7_DB k)
             Double.fresh in
  sdk_selected NetscapeStyle b = true
  /\ APR_HAS_NETSCAPE_LDAPSK b = true
  /\ calls o = [ call_ldapssl_client_init (Some "/cert7.db"); call_ldap_err2string 0 ]
  /\ fst (value o) = APR_SUCCESS k.
Proof.
  intros tk k b o.
  assert (Hb : sdk_selected NetscapeStyle b = true) by reflexivity.
  assert (Hk : APR_HAS_NETSCAPE_LDAPSK b = true) by reflexivity.
  destruct (ssl_init_netscape_forwards_database tk k b "/cert7.db" Double.fresh
              Hb eq_refl Hk eq_refl) as (C1 & _ & _ & _ & C5).
  exact (conj Hb (conj Hk (conj C1 C5))).
Defined.

(** ** apr_ldap_init *)

(** X11: a clear connection ([secure] zero) does not depend on the build
    nor on what [*ldap] held: the one native call is
    [ldap_init(hostname, portno)], its handle is what [*ldap] holds on
    return, and the status is the error of the operating system for a NULL
    handle and [APR_SUCCESS] otherwise. *)
Theorem init_clear_is_build_independent {S : Type} (tk : toolkit S) (k : constants)
        (b b' : build) (ldap_in ldap_in' : option LDAP)
        (hostname : string) (portno : Z) (s : S) :
  let i := ldap_init tk hostname portno s in
  let o := apr_ldap_init tk k b ldap_in hostname portno 0 s in
  o = apr_ldap_init tk k b' ldap_in' hostname portno 0 s
  /\ calls o = [call_ldap_init hostname portno]
  /\ state o = snd i
  /\ ldap_out (value o) = fst i
  /\ status (value o) =
       match fst i with
       | None => apr_get_os_error tk (snd i)
       | Some _ => APR_SUCCESS k
       end.
Proof.
  intros i o. subst o. run. fold i. destruct i as [[h|] s1]; cbn; auto.
Qed.

(** X12: [secure] is a flag: every value but zero asks for the same secure
    connection as 1 does. *)
Theorem init_secure_is_a_flag {S : Type} (tk : toolkit S) (k : constants)
        (b : build) (ldap_in : option LDAP) (hostname : string)
        (portno secure : Z) (s : S) :
  secure <> 0 ->
  apr_ldap_init tk k b ldap_in hostname portno secure s
  = apr_ldap_init tk k b ldap_in hostname portno 1 s.
Proof.
  intros H. unfold apr_ldap_init, init_connect.
  rewrite (Zeqb_neq_false _ _ H). reflexivity.
Qed.

Lemma init_secure_is_a_flag_witness :
  let tk := Double.sdk Double.all_ok in
  let b := full_build NovellStyle true false in
  -1 <> 0
  /\ apr_ldap_init tk Double.consts b None "ldap.example.org" 636 (-1) Double.fresh
     = apr_ldap_init tk Double.consts b None "ldap.example.org" 636 1 Double.fresh
  /\ calls (apr_ldap_init tk Double.consts b None "ldap.example.org" 636 (-1)
              Double.fresh)
     = [call_ldapssl_init "ldap.example.org" 636 1].
Proof.
  intros tk b.
  assert (H : -1 <> 0) by lia.
  exact (conj H (conj (init_secure_is_a_flag tk Double.consts b None
                         "ldap.example.org" 636 (-1) Double.fresh H) eq_refl)).
Defined.

(** X13: with SSL compiled in, a secure connection asked of a build that has
    no way to open one (the SDK lacks [ldapssl_init], [LDAP_OPT_X_TLS] or
    [ldap_sslinit], or the toolkit is Sun's or unrecognised) returns
    [APR_ENOTIMPL] before any native call: the toolkit state and [*ldap]
    are as they were, [rc] and [msg] are as [apr_pcalloc] left them, and a
    reason is set for every toolkit but the unrecognised one. *)
Theorem init_secure_not_implemented {S : Type} (tk : toolkit S) (k : constants)
        (v : ToolkitVariant) (b : build) (ldap_in : option LDAP)
        (hostname : string) (portno secure : Z) (s : S) :
  sdk_selected v b = true ->
  APR_HAS_LDAP_SSL b = true ->
  lacks_secure_open v b = true ->
  secure <> 0 ->
  let o := apr_ldap_init tk k b ldap_in hostname portno secure s in
  status (value o) = APR_ENOTIMPL k
  /\ calls o = [] /\ state o = s
  /\ ldap_out (value o) = ldap_in
  /\ rc (result_err (value o)) = 0
  /\ msg (result_err (value o)) = None
  /\ (reason (result_err (value o)) = None <-> v = Unrecognized).
Proof.
  intros Hb Hssl Hl Hsec o. subst o. apply Zeqb_neq_false in Hsec.
  destruct v; read_build Hb; cbn in Hssl, Hl; subst;
    try (apply negb_true_iff in Hl; subst);
    try (destruct LDAP_OPT_X_TLS0; [discriminate|]);
    run; rewrite Hsec; cbn;
    repeat split; auto; intros; discriminate.
Qed.

Lemma init_secure_not_implemented_witness :
  let tk := Double.sdk Double.all_ok in
  let k := Double.consts in
  let b := mk_build true false false false false true false false false
                    true true false true true (Some 24578) None in
  let o := apr_ldap_init tk k b None "ldap.example.org" 636 1 Double.fresh in
  sdk_selected OpenLDAPStyle b = true
  /\ lacks_secure_open OpenLDAPStyle b = true
  /\ status (value o) = APR_ENOTIMPL k
  /\ calls o = []
  /\ reason (result_err (value o)) =
       Some "LDAP: SSL not yet supported by APR on this version of the OpenLDAP toolkit".
Proof.
  intros tk k b o.
  assert (Hb : sdk_selected OpenLDAPStyle b = true) by reflexivity.
  assert (Hl : lacks_secure_open OpenLDAPStyle b = true) by reflexivity.
  assert (Hs : 1 <> 0) by lia.
  destruct (init_secure_not_implemented tk k OpenLDAPStyle b None "ldap.example.org"
              636 1 Double.fresh Hb eq_refl Hl Hs) as (C1 & C2 & _).
  exact (conj Hb (conj Hl (conj C1 (conj C2 eq_refl)))).
Defined.

(** X14: with SSL compiled in, on the toolkits that open a secure
    connection in one step (Novell and Netscape with [ldapssl_init],
    Microsoft with [ldap_sslinit]) and for a non-zero [secure], the
    one native call is that function with [hostname], [portno] and 1; its
    handle is what [*ldap] holds on return, the result record stays as
    [apr_pcalloc] left it, and the status is the error of the operating
    system for a NULL handle and [APR_SUCCESS] otherwise. *)
Theorem init_secure_one_step {S : Type} (tk : toolkit S) (k : constants)
        (v : ToolkitVariant) (b : build) (ldap_in : option LDAP)
        (hostname : string) (portno secure : Z) (s : S) :
  sdk_selected v b = true ->
  APR_HAS_LDAP_SSL b = true ->
  lacks_secure_open v b = false ->
  v <> OpenLDAPStyle ->
  secure <> 0 ->
  let c := match v with
           | MicrosoftStyle => call_ldap_sslinit hostname portno 1
           | _ => call_ldapssl_init hostname portno 1
           end in
  let i := match v with
           | MicrosoftStyle => ldap_sslinit tk hostname portno 1 s
           | _ => ldapssl_init tk hostname portno 1 s
           end in
  let o := apr_ldap_init tk k b ldap_in hostname portno secure s in
  calls o = [c]
  /\ state o = snd i
  /\ ldap_out (value o) = fst i
  /\ result_err (value o) = apr_pcalloc_err
  /\ status (value o) =
       match fst i with
       | None => apr_get_os_error tk (snd i)
       | Some _ => APR_SUCCESS k
       end.
Proof.
  intros Hb Hssl Hl Hv Hsec c i o. subst o c. apply Zeqb_neq_false in Hsec.
  destruct v; try congruence; try discriminate;
    read_build Hb; cbn in Hssl, Hl; subst;
    apply negb_false_iff in Hl; subst;
    run; rewrite Hsec; cbn; fold i; destruct i as [[h|] s1]; cbn; auto.
Qed.

Lemma init_secure_one_step_witness :
  let tk := Double.sdk Double.all_ok in
  let k := Double.consts in
  let b := full_build MicrosoftStyle true false in
  let o := apr_ldap_init tk k b None "ldap.example.org" 636 1 Double.fresh in
  sdk_selected MicrosoftStyle b = true
  /\ lacks_secure_open MicrosoftStyle b = false
  /\ calls o = [call_ldap_sslinit "ldap.example.org" 636 1]
  /\ ldap_out (value o) = Some 7%nat
  /\ status (value o) = APR_SUCCESS k.
Proof.
  intros tk k b o.
  assert (Hb : sdk_selected MicrosoftStyle b = true) by reflexivity.
  assert (Hl : lacks_secure_open MicrosoftStyle b = false) by reflexivity.
  assert (Hv : MicrosoftStyle <> OpenLDAPStyle) by discriminate.
  assert (Hs : 1 <> 0) by lia.
  destruct (init_secure_one_step tk k MicrosoftStyle b None "ldap.example.org"
              636 1 Double.fresh Hb eq_refl Hl Hv Hs) as (C1 & _ & C3 & _ & C5).
  exact (conj Hb (conj Hl (conj C1 (conj C3 C5)))).
Defined.

(** X15: on OpenLDAP (with SSL and [LDAP_OPT_X_TLS]) a secure connection is
    opened in two steps.  When [ldap_init] returns NULL the option is not
    set: [ldap_init] is the one native call and the status is the error of
    the operating system.  When it returns a handle and setting
    [LDAP_OPT_X_TLS] to [LDAP_OPT_X_TLS_HARD] on it succeeds, the handle is
    returned with [APR_SUCCESS], nothing is unbound, and the result has
    [rc = LDAP_SUCCESS] and neither reason nor [msg]. *)
Theorem init_openldap_two_steps {S : Type} (tk : toolkit S) (k : constants)
        (b : build) (ldap_in : option LDAP) (hostname : string)
        (portno secure : Z) (opt : Z) (s : S) :
  sdk_selected OpenLDAPStyle b = true ->
  APR_HAS_LDAP_SSL b = true ->
  LDAP_OPT_X_TLS b = Some opt ->
  secure <> 0 ->
  let i := ldap_init tk hostname portno s in
  let o := apr_ldap_init tk k b ldap_in hostname portno secure s in
  (fst i = None ->
   calls o = [call_ldap_init hostname portno]
   /\ state o = snd i
   /\ ldap_out (value o) = None
   /\ status (value o) = apr_get_os_error tk (snd i)
   /\ result_err (value o) = apr_pcalloc_err)
  /\
  (forall h,
   fst i = Some h ->
   let t := ldap_set_option tk (Some h) opt (in_int (LDAP_OPT_X_TLS_HARD k)) (snd i) in
   fst t = LDAP_SUCCESS k ->
   calls o = [ call_ldap_init hostname portno;
               call_ldap_set_option (Some h) opt (in_int (LDAP_OPT_X_TLS_HARD k)) ]
   /\ state o = snd t
   /\ ldap_out (value o) = Some h
   /\ status (value o) = APR_SUCCESS k
   /\ result_err (value o) = {| reason := None; msg := None; rc := LDAP_SUCCESS k |}).
Proof.
  intros Hb Hssl Hopt Hsec i o. subst o. apply Zeqb_neq_false in Hsec.
  read_build Hb. cbn in Hssl, Hopt. subst.
  run. rewrite Hsec. cbn. fold i. destruct i as [[h0|] s1]; cbn; split.
  - intros H. discriminate H.
  - intros h Hh. injection Hh as ->.
    destruct (ldap_set_option tk (Some h) opt (in_int (LDAP_OPT_X_TLS_HARD k)) s1)
      as [r2 s2].
    cbn. intros Ht. subst r2. rewrite Z.eqb_refl. cbn. auto.
  - intros _. auto.
  - intros h Hh. discriminate Hh.
Qed.

Lemma init_openldap_two_steps_witness :
  let tk := Double.sdk Double.all_ok in
  let k := Double.consts in
  let b := full_build OpenLDAPStyle true false in
  let o := apr_ldap_init tk k b None "ldap.example.org" 636 1 Double.fresh in
  sdk_selected OpenLDAPStyle b = true
  /\ fst (ldap_init tk "ldap.example.org" 636 Double.fresh) = Some 7%nat
  /\ calls o = [ call_ldap_init "ldap.example.org" 636;
                 call_ldap_set_option (Some 7%nat) 24576 (in_int 1) ]
  /\ ldap_out (value o) = Some 7%nat
  /\ status (value o) = APR_SUCCESS k
  /\ Double.open_handles (state o) = [7%nat].
Proof.
  intros tk k b o.
  assert (Hb : sdk_selected OpenLDAPStyle b = true) by reflexivity.
  assert (Hs : 1 <> 0) by lia.
  assert (Hi : fst (ldap_init tk "ldap.example.org" 636 Double.fresh) = Some 7%nat)
    by reflexivity.
  destruct (init_openldap_two_steps tk k b None "ldap.example.org" 636 1 24576
              Double.fresh Hb eq_refl eq_refl Hs) as (_ & Hok).
  destruct (Hok 7%nat Hi eq_refl) as (C1 & _ & C3 & C4 & _).
  refine (conj Hb (conj Hi (conj C1 (conj C3 (conj C4 _))))).
  reflexivity.
Defined.

(** X16: [apr_ldap_init] never hands back a connection it has unbound: in
    every build and for every input, if [ldap_unbind_s] was called then
    [*ldap] is NULL on return, the status is [APR_EGENERAL] and the result
    carries the reason of the failed hard-TLS option. *)
Theorem init_unbound_handle_is_not_returned {S : Type} (tk : toolkit S)
        (k : constants) (b : build) (ldap_in : option LDAP) (hostname : string)
        (portno secure : Z) (s : S) :
  let o := apr_ldap_init tk k b ldap_in hostname portno secure s in
  existsb is_unbind_call (calls o) = true ->
  ldap_out (value o) = None
  /\ status (value o) = APR_EGENERAL k
  /\ reason (result_err (value o)) =
       Some "LDAP: ldap_set_option - LDAP_OPT_X_TLS_HARD failed".
Proof.
  intros o. subst o. run.
  destruct (LDAP_OPT_X_TLS b); explore; intros H; try discriminate H; auto.
Qed.

Lemma init_unbound_handle_is_not_returned_witness :
  let tk := Double.sdk Double.set_option_fails in
  let k := Double.consts in
  let o := apr_ldap_init tk k (full_build OpenLDAPStyle true false)
             None "ldap.example.org" 636 1 Double.fresh in
  existsb is_unbind_call (calls o) = true
  /\ ldap_out (value o) = None
  /\ status (value o) = APR_EGENERAL k.
Proof.
  intros tk k o.
  assert (H : existsb is_unbind_call (calls o) = true) by reflexivity.
  destruct (init_unbound_handle_is_not_returned tk k (full_build OpenLDAPStyle true false)
              None "ldap.example.org" 636 1 Double.fresh H) as (C1 & C2 & _).
  exact (conj H (conj C1 C2)).
Defined.

(** X17: in a build of one variant [apr_ldap_init] tries to open at most one
    connection per call, so a call cannot leave a second connection
    behind. *)
Theorem init_opens_at_most_once {S : Type} (tk : toolkit S) (k : constants)
        (v : ToolkitVariant) (b : build) (ldap_in : option LDAP)
        (hostname : string) (portno secure : Z) (s : S) :
  sdk_selected v b = true ->
  (List.length (filter is_open_call
             (calls (apr_ldap_init tk k b ldap_in hostname portno secure s))) <= 1)%nat.
Proof.
  intros Hb. destruct v; read_build Hb; run; explore; auto.
Qed.

Lemma init_opens_at_most_once_witness :
  let b := full_build OpenLDAPStyle true false in
  let o := apr_ldap_init (Double.sdk Double.all_ok) Double.consts b
             None "ldap.example.org" 636 1 Double.fresh in
  sdk_selected OpenLDAPStyle b = true
  /\ (List.length (filter is_open_call (calls o)) <= 1)%nat
  /\ List.length (filter is_open_call (calls o)) = 1%nat.
Proof.
  intros b o.
  assert (Hb : sdk_selected OpenLDAPStyle b = true) by reflexivity.
  exact (conj Hb (conj (init_opens_at_most_once (Double.sdk Double.all_ok)
                          Double.consts OpenLDAPStyle b None "ldap.example.org"
                          636 1 Double.fresh Hb) eq_refl)).
Defined.

(** X18: in a build of one variant a reason in the result of
    [apr_ldap_init] means that the call left nothing open: either it
    returned [APR_ENOTIMPL] without any native call and without writing
    [*ldap], or it returned [APR_EGENERAL] after unbinding the connection
    and [*ldap] is NULL.  A call that returns a handle or the error of the
    operating system sets no reason. *)
Theorem init_reason_means_nothing_open {S : Type} (tk : toolkit S) (k : constants)
        (v : ToolkitVariant) (b : build) (ldap_in : option LDAP)
        (hostname : string) (portno secure : Z) (s : S) :
  sdk_selected v b = true ->
  let o := apr_ldap_init tk k b ldap_in hostname portno secure s in
  reason (result_err (value o)) <> None ->
  (status (value o) = APR_ENOTIMPL k /\ calls o = [] /\ state o = s
   /\ ldap_out (value o) = ldap_in)
  \/ (status (value o) = APR_EGENERAL k /\ ldap_out (value o) = None
      /\ existsb is_unbind_call (calls o) = true).
Proof.
  intros Hb o. subst o.
  destruct v; read_build Hb; run; explore; intros H;
    try (exfalso; apply H; reflexivity); auto.
Qed.

Lemma init_reason_means_nothing_open_witness :
  let tk := Double.sdk Double.all_ok in
  let k := Double.consts in
  let b := full_build SolarisStyle true false in
  let o := apr_ldap_init tk k b None "ldap.example.org" 636 1 Double.fresh in
  sdk_selected SolarisStyle b = true
  /\ reason (result_err (value o)) <> None
  /\ status (value o) = APR_ENOTIMPL k
  /\ calls o = [].
Proof.
  intros tk k b o.
  assert (Hb : sdk_selected SolarisStyle b = true) by reflexivity.
  assert (Hr : reason (result_err (value o)) <> None) by discriminate.
  destruct (init_reason_means_nothing_open tk k SolarisStyle b None "ldap.example.org"
              636 1 Double.fresh Hb Hr) as [(C1 & C2 & _) | (_ & _ & C3)].
  - exact (conj Hb (conj Hr (conj C1 C2))).
  - discriminate C3.
Defined.

(** ** The two halves do not mix *)

(** X19: [apr_ldap_init] leaves the trust store alone, in every build and
    for every input: it never initialises or tears down the SSL client and
    never hands a certificate to the toolkit ("assumes that any certificate
    setup necessary has already been done"). *)
Theorem init_makes_no_trust_call {S : Type} (tk : toolkit S) (k : constants)
        (b : build) (ldap_in : option LDAP) (hostname : string)
        (portno secure : Z) (s : S) :
  existsb is_trust_call
    (calls (apr_ldap_init tk k b ldap_in hostname portno secure s)) = false.
Proof.
  run. destruct (LDAP_OPT_X_TLS b); explore; reflexivity.
Qed.

(** The calls of a sequence are the calls of its parts. *)
Lemma existsb_calls_bind {S A B : Type} (P : native_call -> bool)
      (m : Eff.M S A) (f : A -> Eff.M S B) (s : S) :
  existsb P (calls (Eff.bind m f s))
  = existsb P (calls (m s))
    || existsb P (calls (f (value (m s)) (state (m s)))).
Proof.
  unfold Eff.bind, calls, value, state.
  destruct (m s) as [[a s1] c1]. cbn.
  destruct (f a s1) as [[x s2] c2]. cbn.
  apply existsb_app.
Qed.

(** No block of [apr_ldap_ssl_init] makes a call on a connection. *)
Lemma ssl_init_blocks_no_connection_call {S : Type} (tk : toolkit S)
      (k : constants) (b : build) (file : option string) (ty : Z)
      (r : apr_ldap_err_t) (s : S) :
  existsb is_connection_call (calls (ssl_init_netscape tk k b file ty r s)) = false
  /\ existsb is_connection_call (calls (ssl_init_novell tk k b file ty r s)) = false
  /\ existsb is_connection_call (calls (ssl_init_openldap tk k b file ty r s)) = false
  /\ existsb is_connection_call (calls (ssl_init_microsoft k b r s)) = false
  /\ existsb is_connection_call (calls (ssl_init_solaris b file r s)) = false
  /\ existsb is_connection_call (calls (ssl_init_other b file r s)) = false
  /\ existsb is_connection_call (calls (ssl_init_nossl file r s)) = false
  /\ existsb is_connection_call (calls (ssl_init_finish tk k r s)) = false.
Proof.
  repeat split; run;
    try destruct (LDAP_OPT_X_TLS_CACERTFILE b); try destruct file;
    explore; reflexivity.
Qed.

(** X20: [apr_ldap_ssl_init] and [apr_ldap_ssl_deinit] never touch a
    connection, in every build and for every input: none of their native
    calls opens or unbinds one or sets an option on a handle. *)
Theorem ssl_init_makes_no_connection_call {S : Type} (tk : toolkit S)
        (k : constants) (b : build) (file : option string) (ty : Z) (s : S) :
  existsb is_connection_call (calls (apr_ldap_ssl_init tk k b file ty s)) = false
  /\ existsb is_connection_call (calls (apr_ldap_ssl_deinit tk k b s)) = false.
Proof.
  split.
  - pose proof (ssl_init_blocks_no_connection_call tk k b file ty) as L.
    pose proof (fun r s0 => proj1 (L r s0)) as L1.
    pose proof (fun r s0 => proj1 (proj2 (L r s0))) as L2.
    pose proof (fun r s0 => proj1 (proj2 (proj2 (L r s0)))) as L3.
    pose proof (fun r s0 => proj1 (proj2 (proj2 (proj2 (L r s0))))) as L4.
    pose proof (fun r s0 => proj1 (proj2 (proj2 (proj2 (proj2 (L r s0)))))) as L5.
    pose proof (fun r s0 =>
                  proj1 (proj2 (proj2 (proj2 (proj2 (proj2 (L r s0))))))) as L6.
    pose proof (fun r s0 =>
                  proj1 (proj2 (proj2 (proj2 (proj2 (proj2 (proj2 (L r s0)))))))) as L7.
    pose proof (fun r s0 =>
                  proj2 (proj2 (proj2 (proj2 (proj2 (proj2 (proj2 (L r s0)))))))) as L8.
    unfold apr_ldap_ssl_init, ssl_init_blocks.
    destruct (APR_HAS_LDAP_SSL b); repeat rewrite existsb_calls_bind;
      rewrite ?L1, ?L2, ?L3, ?L4, ?L5, ?L6, ?L7, ?L8; reflexivity.
  - run. explore; reflexivity.
Qed.

(** ** What reaches the toolkit, and what comes back *)

(** X21: in a build of one variant a call of [apr_ldap_ssl_init] hands at
    most one certificate to the toolkit, and it is the caller's
    [cert_auth_file], unchanged. *)
Theorem ssl_init_hands_over_the_given_file {S : Type} (tk : toolkit S)
        (k : constants) (v : ToolkitVariant) (b : build)
        (file : option string) (ty : Z) (s : S) :
  sdk_selected v b = true ->
  let cs := certificates (calls (apr_ldap_ssl_init tk k b file ty s)) in
  cs = [] \/ exists path, file = Some path /\ cs = [path].
Proof.
  intros Hb cs. subst cs.
  destruct v; read_build Hb; destruct file as [path|]; run; explore;
    first [ left; reflexivity | right; exists path; split; reflexivity ].
Qed.

Lemma ssl_init_hands_over_the_given_file_witness :
  let b := full_build NovellStyle true false in
  let cs := certificates (calls (apr_ldap_ssl_init (Double.sdk Double.all_ok)
                                   Double.consts b (Some "/ca.pem") 2 Double.fresh)) in
  sdk_selected NovellStyle b = true
  /\ (cs = [] \/ exists path, Some "/ca.pem" = Some path /\ cs = [path])
  /\ cs = ["/ca.pem"].
Proof.
  intros b cs.
  assert (Hb : sdk_selected NovellStyle b = true) by reflexivity.
  exact (conj Hb (conj (ssl_init_hands_over_the_given_file (Double.sdk Double.all_ok)
                          Double.consts NovellStyle b (Some "/ca.pem") 2
                          Double.fresh Hb) eq_refl)).
Defined.

(** The first characters of a string that starts with [v] are [v]. *)
Lemma substring_of_prefix (v q : string) :
  substring 0 (String.length v) (v ++ q) = v.
Proof.
  induction v as [|c v IH]; cbn.
  - destruct q; reflexivity.
  - rewrite IH. reflexivity.
Qed.

(** X22: [apr_ldap_info] always returns [APR_SUCCESS], makes no native call
    and leaves the toolkit state alone; the result has [rc] zero, no [msg],
    and a reason from which the name of the SDK can be read back: it is the
    text after the 21 characters "APR LDAP: Built with " and before
    " LDAP SDK". *)
Theorem info_reports_the_vendor {S : Type} (k : constants) (s : S) :
  let o := apr_ldap_info k s in
  fst (value o) = APR_SUCCESS k
  /\ calls o = [] /\ state o = s
  /\ rc (snd (value o)) = 0
  /\ msg (snd (value o)) = None
  /\ exists text,
       reason (snd (value o)) = Some text
       /\ String.length text = (30 + String.length (LDAP_VENDOR_NAME k))%nat
       /\ substring 21 (String.length (LDAP_VENDOR_NAME k)) text = LDAP_VENDOR_NAME k
       /\ substring (21 + String.length (LDAP_VENDOR_NAME k)) 9 text = " LDAP SDK".
Proof.
  intros o. subst o. unfold apr_ldap_info. run.
  repeat split.
  eexists. split; [reflexivity|]. cbn.
  split; [|split].
  - do 21 f_equal. induction (LDAP_VENDOR_NAME k) as [|c v IH]; cbn; congruence.
  - apply substring_of_prefix.
  - induction (LDAP_VENDOR_NAME k) as [|c v IH]; cbn; [reflexivity|exact IH].
Qed.
